(** * omtk: a shallow embedding of the rigging toolkit and its checked properties

    The development follows the layout of the repository:

    - [Py]            the fragment of Python the sources rely on (outcomes of
                      calls, exceptions, [list.insert], [str.format]);
    - [Scalar], [Maya] the host's utility nodes ([condition], [multiplyDivide],
                      [plusMinusAverage], [blendTwoAttr], [clamp], ...), generic
                      in the scalar type so that a network can be evaluated on
                      rationals and reasoned about on reals;
    - [LegacyIK]      rigging/AutoRig/rigIK.py;
    - [SoftIkNode]    omtk/rigging/autorig/rigIK.py;
    - [libCtrlShapes] omtk/libs/libCtrlShapes.py;
    - [Host]          the scene of the host: live nodes and the log;
    - [Avar]          omtk/modules/rigFaceAvar.py;
    - [Registry]      scripts/omtk/modules/__init__.py;
    - [DpSpine]       omtk/rigDpSpine.py;
    - [Rig]           omtk/classRig.py.

    Scalars of the host are floating-point numbers; node arithmetic is read
    here over exact fields (Q where the network is evaluated, R where the
    exponential is needed). *)

From Stdlib Require Import Reals Psatz QArith Qminmax String Ascii DecimalString List ZArith Lia Bool.
From stdpp Require Import base option gmap strings.
Import ListNotations.

Set Default Proof Using "Type".

(* ================================================================== *)
(** * Python: outcomes and exceptions *)
(* ================================================================== *)

Module Py.

(** The exceptions the modelled code raises. [Exception] carries its
    message; the two others are raised by the interpreter itself. *)
Inductive exn : Type :=
| Exception (msg : string)
| IndexError
| AttributeError.

(** The outcome of a call: a returned value or a raised exception. *)
Inductive outcome (A : Type) : Type :=
| Return (a : A)
| Raise (e : exn).
Arguments Return {A} a.
Arguments Raise {A} e.

Definition bind {A B} (m : outcome A) (k : A -> outcome B) : outcome B :=
  match m with
  | Return a => k a
  | Raise e => Raise e
  end.

Definition raises {A} (m : outcome A) : bool :=
  match m with Raise _ => true | Return _ => false end.

(** [str(n)] for a non-negative integer. *)
Definition str_of_nat (n : nat) : string :=
  NilEmpty.string_of_uint (Nat.to_uint n).

(** Normalisation of a sequence index: a negative index counts from the end. *)
Definition norm_index (len : nat) (i : Z) : Z :=
  if (i <? 0)%Z then (i + Z.of_nat len)%Z else i.

(** [l[i]]: [IndexError] outside [-len, len). *)
Definition getitem {A} (l : list A) (i : Z) : outcome A :=
  let j := norm_index (List.length l) i in
  if (j <? 0)%Z then Raise IndexError
  else match nth_error l (Z.to_nat j) with
       | Some a => Return a
       | None => Raise IndexError
       end.

(** [l.insert(i, x)]: the index is normalised, then clipped to [0, len]. *)
Definition list_insert {A} (l : list A) (i : Z) (x : A) : list A :=
  let j := Z.to_nat (Z.max 0 (norm_index (List.length l) i)) in
  firstn j l ++ x :: skipn j l.

End Py.

Import Py.

(* ================================================================== *)
(** * Scalars *)
(* ================================================================== *)

(** The operations a utility node performs on a scalar plug. *)
Class Scalar (A : Type) : Type := {
  s_lit : Q -> A;              (* a numeric literal of the source *)
  s_add : A -> A -> A;
  s_sub : A -> A -> A;
  s_mul : A -> A -> A;
  s_div : A -> A -> A;
  s_eqb : A -> A -> bool;
  s_ltb : A -> A -> bool
}.

Definition Q_ltb (a b : Q) : bool :=
  match Qcompare a b with Lt => true | _ => false end.

#[export] Instance Q_Scalar : Scalar Q := {
  s_lit q := q;
  s_add := Qplus;
  s_sub := Qminus;
  s_mul := Qmult;
  s_div := Qdiv;
  s_eqb := Qeq_bool;
  s_ltb := Q_ltb
}.

Definition R_eqb (a b : R) : bool := if Req_dec_T a b then true else false.
Definition R_ltb (a b : R) : bool := if Rlt_dec a b then true else false.

#[export] Instance R_Scalar : Scalar R := {
  s_lit := Q2R;
  s_add := Rplus;
  s_sub := Rminus;
  s_mul := Rmult;
  s_div := Rdiv;
  s_eqb := R_eqb;
  s_ltb := R_ltb
}.

(* ================================================================== *)
(** * The host's utility nodes *)
(* ================================================================== *)

Module Maya.
Section Nodes.
Context {A : Type} `{Scalar A}.

Definition vec3 : Type := (A * A * A)%type.

Definition v_map2 (f : A -> A -> A) (a b : vec3) : vec3 :=
  let '(ax, ay, az) := a in
  let '(bx, by_, bz) := b in
  (f ax bx, f ay by_, f az bz).

(** [condition]: [operation] 0 equal, 1 not equal, 2 greater than,
    3 greater or equal, 4 less than, 5 less or equal. The node selects
    [colorIfTrue] when the comparison of [firstTerm] with [secondTerm]
    holds and [colorIfFalse] otherwise. *)
Definition condition_test (operation : nat) (firstTerm secondTerm : A) : bool :=
  match operation with
  | 0%nat => s_eqb firstTerm secondTerm
  | 1%nat => negb (s_eqb firstTerm secondTerm)
  | 2%nat => s_ltb secondTerm firstTerm
  | 3%nat => negb (s_ltb firstTerm secondTerm)
  | 4%nat => s_ltb firstTerm secondTerm
  | _ => negb (s_ltb secondTerm firstTerm)
  end.

Definition condition {B : Type} (operation : nat) (firstTerm secondTerm : A)
           (colorIfTrue colorIfFalse : B) : B :=
  if condition_test operation firstTerm secondTerm
  then colorIfTrue else colorIfFalse.

(** [multiplyDivide]: [operation] 1 multiply (the default), 2 divide. *)
Definition multiplyDivide (operation : nat) (input1 input2 : A) : A :=
  match operation with
  | 2%nat => s_div input1 input2
  | _ => s_mul input1 input2
  end.

Definition multiplyDivide3 (operation : nat) (input1 input2 : vec3) : vec3 :=
  v_map2 (multiplyDivide operation) input1 input2.

(** [plusMinusAverage] on two inputs: [operation] 1 sum (the default),
    2 subtract. *)
Definition plusMinusAverage (operation : nat) (a b : A) : A :=
  match operation with
  | 2%nat => s_sub a b
  | _ => s_add a b
  end.

Definition plusMinusAverage3 (operation : nat) (a b : vec3) : vec3 :=
  v_map2 (plusMinusAverage operation) a b.

Definition addDoubleLinear (input1 input2 : A) : A := s_add input1 input2.

(** [blendTwoAttr]: [input[0]*(1 - blender) + input[1]*blender]. *)
Definition blendTwoAttr (input0 input1 attributesBlender : A) : A :=
  s_add (s_mul input0 (s_sub (s_lit 1) attributesBlender))
        (s_mul input1 attributesBlender).

(** [clamp]: the input limited to [min, max]. *)
Definition clamp (input min max : A) : A :=
  if s_ltb input min then min
  else if s_ltb max input then max
  else input.

End Nodes.
End Maya.

(* ================================================================== *)
(** * rigging/AutoRig/rigIK.py: the legacy IK module *)
(* ================================================================== *)

Module LegacyIK.
Section Stretch.
Context {A : Type} `{Scalar A}.

(** The three nodes of [IK.Build] under [if self.bStretch is True]:
    the distance is divided by the chain length, and the quotient is
    kept only when it is greater than 1.0. *)
Definition attStretch (attChainDistance fChainLength : A) : A :=
  let attStretch :=
    Maya.multiplyDivide 2 attChainDistance fChainLength in
  Maya.condition 2 attStretch (s_lit 1) attStretch (s_lit 1).

(** The translation written on each joint after the root:
    [input1 = oInput.t.get()], [input2X/Y/Z = attStretch]. *)
Definition attNewPos (t : Maya.vec3) (stretch : A) : Maya.vec3 :=
  Maya.multiplyDivide3 1 t (stretch, stretch, stretch).

(** [IK.Build], stretch part: the factor applied to the chain joints.
    With [bStretch] false no node is created and the joints keep their
    translation. *)
Definition Build_stretch (bStretch : bool) (D L : A)
           (joints : list Maya.vec3) : list Maya.vec3 :=
  if bStretch
  then List.map (fun t => attNewPos t (attStretch D L)) joints
  else joints.
End Stretch.
End LegacyIK.

(* ================================================================== *)
(** * omtk/rigging/autorig/rigIK.py: the soft-IK compute node *)
(* ================================================================== *)

Module SoftIkNode.
Local Open Scope R_scope.

(** A matrix plug. The only node reading [inMatrixS] and [inMatrixE] is the
    distance operator, which reads their translation row. *)
Record matrix : Type := mkMatrix { tx : R; ty : R; tz : R }.

(** The formula operator [a~b] ([distanceBetween] on two matrices). *)
Definition distanceBetween (a b : matrix) : R :=
  sqrt ((tx a - tx b) * (tx a - tx b) + (ty a - ty b) * (ty a - ty b)
        + (tz a - tz b) * (tz a - tz b)).

(** The formula constant [e] and the formula operator [a^b]. *)
Definition e : R := exp 1.
Definition pow (a b : R) : R := Rpower a b.

(** The input attributes added by [build]. *)
Record inputs : Type := mkInputs {
  inMatrixS : matrix;
  inMatrixE : matrix;
  inRatio : R;
  inScale : R;
  inStretch : R;
  inChainLength : R
}.

(** The two output attributes connected at the end of [build]. *)
Record outputs : Type := mkOutputs { outRatio : R; outStretch : R }.

(** [SoftIkNode.build]: each [let] is one assignment to [formula.<name>],
    in the order of the source; a name assigned twice is shadowed as the
    attribute is overwritten. *)
Definition build (i : inputs) : outputs :=
  let inDistance := distanceBetween (inMatrixS i) (inMatrixE i) in
  let distanceSoft := inChainLength i * inRatio i in
  let distanceSafe := inChainLength i - distanceSoft in
  let deltaSafeSoft := (inDistance - distanceSafe) / distanceSoft in
  let deltaSafeSoft :=
    Maya.condition 0 distanceSoft 0 0 deltaSafeSoft in
  let outDistanceSoft :=
    (distanceSoft * (1 - (pow e (deltaSafeSoft * -1)))) + distanceSafe in
  let outDistance :=
    Maya.condition 2 deltaSafeSoft 0 outDistanceSoft inDistance in
  let outDistance :=
    Maya.blendTwoAttr outDistance inDistance (inStretch i) in
  let outStretch := inDistance / outDistanceSoft in
  let outStretch :=
    Maya.condition 2 inDistance distanceSafe outStretch 1 in
  let outStretch := Maya.blendTwoAttr 1 outStretch (inStretch i) in
  let outRatio := outDistance / inDistance in
  {| outRatio := outRatio; outStretch := outStretch |}.

(** ** The equations of the specification, as they are written there *)

Definition spec_softDist (L r : R) : R := L * r.
Definition spec_safeDist (L r : R) : R := L - spec_softDist L r.

Definition spec_delta (D L r : R) : R :=
  if Req_dec_T (spec_softDist L r) 0 then 0
  else (D - spec_safeDist L r) / spec_softDist L r.

Definition spec_softTargetDist (D L r : R) : R :=
  spec_softDist L r * (1 - exp (- spec_delta D L r)) + spec_safeDist L r.

Definition spec_effective (D L r : R) : R :=
  if Rlt_dec 0 (spec_delta D L r) then spec_softTargetDist D L r else D.

Definition spec_blended (D L r s : R) : R :=
  spec_effective D L r * (1 - s) + D * s.

Definition spec_outRatio (D L r s : R) : R := spec_blended D L r s / D.

(** The inputs of the worked example: chain length 10, ratio 0.1, no
    stretch. *)
Definition example_inputs (S E : matrix) : inputs :=
  {| inMatrixS := S; inMatrixE := E; inRatio := 1 / 10; inScale := 1;
     inStretch := 0; inChainLength := 10 |}.

(** The terms of the series of [exp (-1/2)], without their sign. *)
Definition half_term (i : nat) : R := (1 / 2) ^ i / INR (fact i).

End SoftIkNode.

(* ================================================================== *)
(** * omtk/libs/libCtrlShapes.py: procedural control shapes *)
(* ================================================================== *)

Module libCtrlShapes.
Local Open Scope Q_scope.

Definition point : Type := (Q * Q * Q)%type.

(** [pymel.curve(d=1, p=[...])]: a degree-1 curve is its list of points. *)
Definition curve : Type := list point.

(** What [create_shape_needle] leaves in the scene: [shape1] (the line
    from the origin), with the shapes of [shape2] (the profile of the head)
    and [shape3] (the ring of the head) parented under it; the rotation set
    on [shape1] from [normal], and whether [makeIdentity] froze it. *)
Record needle : Type := mkNeedle {
  shape1 : curve;
  shape2 : curve;
  shape3 : curve;
  rotateX : Q;
  rotateZ : Q;
  need_identity : bool
}.

(** [if length is None: length = size * 4.0] *)
Definition resolve_length (size : Q) (length : option Q) : Q :=
  match length with None => size * 4 | Some l => l end.

(** [if radius is None: radius = size * 0.25] *)
Definition resolve_radius (size : Q) (radius : option Q) : Q :=
  match radius with None => size * (25 # 100) | Some r => r end.

(** Truth value of a number: it is not zero. *)
Definition truthy (x : Q) : bool := negb (Qeq_bool x 0).

Definition create_shape_needle (size : Q) (length radius : option Q)
           (normal : point) : needle :=
  let length := resolve_length size length in
  let radius := resolve_radius size radius in
  let radius_mid := radius * (75 # 100) in
  let y_circle_mid_max := length + radius_mid in
  let y_circle_mid_min := length - radius_mid in
  let y_circle_min := length - radius in
  let y_circle_max := length + radius in
  let xz_circle_rad := radius in
  let xz_circle_mid_rad := xz_circle_rad * (75 # 100) in
  let shape1 := [
    (0, 0, 0);
    (0, y_circle_min, 0)
  ] in
  let shape2 := [
    (0, y_circle_max, - 0);
    (0, y_circle_max, 0);
    (xz_circle_mid_rad, y_circle_mid_max, 0);
    (xz_circle_rad, length, 0);
    (xz_circle_mid_rad, y_circle_mid_min, 0);
    (0, y_circle_min, 0);
    (- xz_circle_mid_rad, y_circle_mid_min, - 0);
    (- xz_circle_rad, length, 0);
    (- xz_circle_mid_rad, y_circle_mid_max, 0);
    (0, y_circle_max, 0);
    (xz_circle_mid_rad, y_circle_mid_max, 0)
  ] in
  let shape3 := [
    (- xz_circle_mid_rad, length, - xz_circle_mid_rad);
    (- xz_circle_rad, length, 0);
    (- xz_circle_mid_rad, length, xz_circle_mid_rad);
    (0, length, xz_circle_rad);
    (xz_circle_mid_rad, length, xz_circle_mid_rad);
    (xz_circle_rad, length, 0);
    (xz_circle_mid_rad, length, - xz_circle_mid_rad);
    (0, length, - xz_circle_rad);
    (- xz_circle_mid_rad, length, - xz_circle_mid_rad);
    (- xz_circle_rad, length, 0);
    (- xz_circle_rad, length, 0)
  ] in
  let '(normal_x, normal_y, normal_z) := normal in
  let '(rx, rz, need_identity) :=
    if truthy normal_x then
      if Q_ltb normal_x 0 then (0, 90, true) else (0, - (90), true)
    else if truthy normal_y then
      if Q_ltb normal_y 0 then (180, 0, true) else (0, 0, false)
    else if truthy normal_z then
      if Q_ltb normal_z 0 then (- (90), 0, true) else (90, 0, true)
    else (0, 0, true) in
  {| shape1 := shape1; shape2 := shape2; shape3 := shape3;
     rotateX := rx; rotateZ := rz; need_identity := need_identity |}.

(** The call of the claim: [create_shape_needle(size=s)], every other
    argument at its default. *)
Definition needle_default (s : Q) : needle :=
  create_shape_needle s None None (0, 1, 0).

Definition create_shape_cross (size : Q) : curve :=
  let s1 := size * (5 # 10) in
  let s2 := size in
  [ (0, - s1, s1);
    (0, - s1, s2);
    (0, s1, s2);
    (0, s1, s1);
    (0, s2, s1);
    (0, s2, - s1);
    (0, s1, - s1);
    (0, s1, - s2);
    (0, - s1, - s2);
    (0, - s1, - s1);
    (0, - s2, - s1);
    (0, - s2, s1);
    (0, - s1, s1) ].

(** ** Measures used to state the geometric invariants *)

Definition py (p : point) : Q := snd (fst p).
Definition coords (p : point) : list Q :=
  let '(x, y, z) := p in [x; y; z].

(** The length of the shaft: [shape1] is a segment of the Y axis, from its
    first point to its last. *)
Definition shaft_length (n : needle) : Q :=
  py (List.last (shape1 n) (0, 0, 0)) - py (List.hd (0, 0, 0) (shape1 n)).

(** Membership up to the equality of rationals. *)
Definition Q_in (x : Q) (l : list Q) : Prop := Exists (Qeq x) l.

(** The largest distance of a point of the head ring from the Y axis along
    X, and the X coordinate of its diagonal points. *)
Definition ring_radius (n : needle) : Q := fst (fst (List.nth 5 (shape3 n) (0, 0, 0))).
Definition ring_mid_radius (n : needle) : Q :=
  fst (fst (List.nth 4 (shape3 n) (0, 0, 0))).
Definition ring_height (n : needle) : Q := py (List.nth 5 (shape3 n) (0, 0, 0)).

End libCtrlShapes.

(* ================================================================== *)
(** * The host scene *)
(* ================================================================== *)

Module Host.

(** A handle on a scene node. *)
Definition node : Type := nat.

(** What the scene records of a live node: its type and its name. *)
Record node_info : Type := mkInfo { node_type : string; node_name : string }.

(** The scene: its live nodes, and the handle the next created node gets. *)
Record scene : Type := mkScene {
  live : gmap node node_info;
  next : node
}.

(** [pymel.createNode(type, name=...)] *)
Definition createNode (type name : string) (sc : scene) : scene * node :=
  ({| live := <[next sc := mkInfo type name]> (live sc); next := S (next sc) |},
   next sc).

(** [node.exists()] *)
Definition exists_ (n : node) (sc : scene) : bool :=
  bool_decide (is_Some (live sc !! n)).

(** [pymel.delete(node)] *)
Definition delete (n : node) (sc : scene) : scene :=
  {| live := base.delete n (live sc); next := next sc |}.

(** The world a method runs in: the scene and the log of warnings. *)
Record world : Type := mkWorld {
  w_scene : scene;
  w_log : list string
}.

(** [pymel.warning(msg)] and [Module.warning(msg)]: the scene is left as
    it is, the message is logged. *)
Definition warning (msg : string) (w : world) : world :=
  {| w_scene := w_scene w; w_log := w_log w ++ [msg] |}.

End Host.

(* ================================================================== *)
(** * omtk/modules/rigFaceAvar.py: the facial avars *)
(* ================================================================== *)

Module Avar.

(** ** The avar attributes and their backup *)

(** An attribute of a node: [node.attr(name)]. *)
Definition attr : Type := (Host.node * string)%type.

(** The fields of [classModule.Module] that the avar methods read. *)
Record Module : Type := mkModule {
  name : string;
  grp_rig : option Host.node;
  grp_anm : option Host.node
}.

(** The fields [AbstractAvar.__init__] and [init_avars] add to a module. *)
Record AbstractAvar : Type := mkAvar {
  base : Module;
  avar_network : option Host.node;
  attr_ud : option attr;
  attr_lr : option attr;
  attr_fb : option attr;
  attr_yw : option attr;
  attr_pt : option attr;
  attr_rl : option attr;
  attr_sx : option attr;
  attr_sy : option attr;
  attr_sz : option attr
}.

Definition AVAR_NAME_UD : string := "avar_ud".
Definition AVAR_NAME_LR : string := "avar_lr".
Definition AVAR_NAME_FB : string := "avar_fb".
Definition AVAR_NAME_YAW : string := "avar_yw".
Definition AVAR_NAME_PITCH : string := "avar_pt".
Definition AVAR_NAME_ROLL : string := "avar_rl".
Definition AVAR_NAME_SY : string := "avar_scale_ud".
Definition AVAR_NAME_SX : string := "avar_scale_lr".
Definition AVAR_NAME_SZ : string := "avar_scale_fb".

Definition init_avars (self : AbstractAvar) : AbstractAvar :=
  {| base := base self;
     avar_network := avar_network self;
     attr_ud := None;
     attr_lr := None;
     attr_fb := None;
     attr_yw := None;
     attr_pt := None;
     attr_rl := None;
     attr_sx := None;
     attr_sy := None;
     attr_sz := None |}.

(** [add_avar]: the attribute created on the holder. *)
Definition add_avar (attr_holder : Host.node) (name : string) : attr :=
  (attr_holder, name).

Definition add_avars (self : AbstractAvar) (attr_holder : Host.node)
  : AbstractAvar :=
  {| base := base self;
     avar_network := avar_network self;
     attr_ud := Some (add_avar attr_holder AVAR_NAME_UD);
     attr_lr := Some (add_avar attr_holder AVAR_NAME_LR);
     attr_fb := Some (add_avar attr_holder AVAR_NAME_FB);
     attr_yw := Some (add_avar attr_holder AVAR_NAME_YAW);
     attr_pt := Some (add_avar attr_holder AVAR_NAME_PITCH);
     attr_rl := Some (add_avar attr_holder AVAR_NAME_ROLL);
     attr_sx := Some (add_avar attr_holder AVAR_NAME_SX);
     attr_sy := Some (add_avar attr_holder AVAR_NAME_SY);
     attr_sz := Some (add_avar attr_holder AVAR_NAME_SZ) |}.

Definition set_avar_network (self : AbstractAvar) (n : option Host.node)
  : AbstractAvar :=
  {| base := base self;
     avar_network := n;
     attr_ud := attr_ud self; attr_lr := attr_lr self;
     attr_fb := attr_fb self; attr_yw := attr_yw self;
     attr_pt := attr_pt self; attr_rl := attr_rl self;
     attr_sx := attr_sx self; attr_sy := attr_sy self;
     attr_sz := attr_sz self |}.

Definition set_base (self : AbstractAvar) (b : Module) : AbstractAvar :=
  {| base := b;
     avar_network := avar_network self;
     attr_ud := attr_ud self; attr_lr := attr_lr self;
     attr_fb := attr_fb self; attr_yw := attr_yw self;
     attr_pt := attr_pt self; attr_rl := attr_rl self;
     attr_sx := attr_sx self; attr_sy := attr_sy self;
     attr_sz := attr_sz self |}.

(** [self.grp_rig is None or not self.grp_rig.exists()] *)
Definition invalid_grp_rig (self : AbstractAvar) (sc : Host.scene) : bool :=
  match grp_rig (base self) with
  | None => true
  | Some n => negb (Host.exists_ n sc)
  end.

(** The handle of [grp_rig] is [None] or resolves to no live node. *)
Definition grp_rig_lost (self : AbstractAvar) (sc : Host.scene) : Prop :=
  grp_rig (base self) = None
  \/ exists n, grp_rig (base self) = Some n /\ Host.live sc !! n = None.

Section Unbuild.
(** [str(self)], [self.get_nomenclature_rig().resolve(token)], the loop
    of [hold_avars] that moves the connections of the avars onto the
    backup node (with [self.rig.hold_node]), and [Module.unbuild] are
    code of [classModule] and of the nomenclature, taken as they come. *)
Variable str_self : AbstractAvar -> string.
Variable resolve : AbstractAvar -> string -> string.
Variable hold_connections :
  AbstractAvar -> Host.node -> Host.world -> Host.world.
(** Modelled from the spec: [Module.unbuild] deletes the scene nodes the
    module owns and does not raise; it is a method of the base class and
    acts on the fields of the base class. *)
Variable Module_unbuild : Module -> Host.world -> Module * Host.world.

Definition hold_avars (self : AbstractAvar) (w : Host.world)
  : AbstractAvar * Host.world :=
  if invalid_grp_rig self (Host.w_scene w) then
    (self,
     Host.warning ("Can't hold avars, invalid grp_rig in "
                     ++ str_self self ++ "!") w)
  else
    let '(sc, n) :=
      Host.createNode "transform" (resolve self "avarBackup")
                      (Host.w_scene w) in
    let self := set_avar_network self (Some n) in
    let self := add_avars self n in
    (self,
     hold_connections self n
       {| Host.w_scene := sc; Host.w_log := Host.w_log w |}).

(** [AbstractAvar.unbuild] *)
Definition unbuild (self : AbstractAvar) (w : Host.world)
  : AbstractAvar * Host.world :=
  let '(self, w) := hold_avars self w in
  let self := init_avars self in
  let '(b, w) := Module_unbuild (base self) w in
  (set_base self b, w).
End Unbuild.

(** The nine handles of the avar attributes. *)
Definition avar_handles (self : AbstractAvar) : list (option attr) :=
  [attr_ud self; attr_lr self; attr_fb self; attr_yw self; attr_pt self;
   attr_rl self; attr_sx self; attr_sy self; attr_sz self].

(** ** The dag stack *)

(** What drives a plug of a layer: an avar attribute of the module, or the
    output of a utility node built before. *)
Inductive driver : Type :=
| AvarAttr (name : string)
| NodeOutput (name : string).

(** A layer of the stack: a named transform and the connections made to
    its plugs. *)
Record layer : Type := mkLayer {
  layer_name : string;
  layer_inputs : list (string * driver)
}.

(** The stack, outermost layer first. *)
Definition stack : Type := list layer.

(** [stack.append_layer(name)]: the layer is added under the last one; the
    handle returned is its rank. *)
Definition append_layer (name : string) (s : stack) : stack * nat :=
  (s ++ [mkLayer name []], List.length s).

(** [pymel.connectAttr(src, layer.plug)] *)
Definition connectAttr (src : driver) (l : nat) (plug : string) (s : stack)
  : stack :=
  alter (fun x => mkLayer (layer_name x) (layer_inputs x ++ [(plug, src)])) l s.

(** The three classes of avars, for the dispatch of [self.build_stack]. *)
Inductive cls : Type := ClsAbstractAvar | ClsAvarSimple | ClsAvarFollicle.

Definition AbstractAvar_build_stack (s : stack) : stack := s.

Definition AvarSimple_build_stack (s : stack) : stack :=
  let '(s, layer_pos) := append_layer "pos" s in
  let s := connectAttr (AvarAttr AVAR_NAME_LR) layer_pos "tx" s in
  let s := connectAttr (AvarAttr AVAR_NAME_UD) layer_pos "ty" s in
  let s := connectAttr (AvarAttr AVAR_NAME_FB) layer_pos "tz" s in
  let s := connectAttr (AvarAttr AVAR_NAME_YAW) layer_pos "ry" s in
  let s := connectAttr (AvarAttr AVAR_NAME_PITCH) layer_pos "rx" s in
  let s := connectAttr (AvarAttr AVAR_NAME_ROLL) layer_pos "rz" s in
  s.

(** [AvarFollicle.build_stack]: the layers it appends and what it connects
    to them. The method overrides [AvarSimple.build_stack] and does not
    call it. *)
Definition AvarFollicle_build_stack (s : stack) : stack :=
  let '(s, layer_follicle) := append_layer "follicleLayer" s in
  let s := connectAttr (NodeOutput "util_decomposeTM.outputTranslate")
                       layer_follicle "translate" s in
  let '(s, layer_oob) := append_layer "oobLayer" s in
  let s := connectAttr (NodeOutput "oob_offset") layer_oob "t" s in
  let '(s, layer_fb) := append_layer "fbLayer" s in
  let s := connectAttr (NodeOutput "attr_get_fb_adjusted")
                       layer_fb "translateZ" s in
  let '(s, layer_follicle_rot) := append_layer "folRot" s in
  let s := connectAttr (NodeOutput "util_decomposeTM.outputRotate")
                       layer_follicle_rot "rotate" s in
  let '(s, layer_rot) := append_layer "rotLayer" s in
  let s := connectAttr (AvarAttr AVAR_NAME_YAW) layer_rot "rotateY" s in
  let s := connectAttr (AvarAttr AVAR_NAME_PITCH) layer_rot "rotateX" s in
  let s := connectAttr (AvarAttr AVAR_NAME_ROLL) layer_rot "rotateZ" s in
  let s := connectAttr (AvarAttr AVAR_NAME_SX) layer_rot "scaleX" s in
  let s := connectAttr (AvarAttr AVAR_NAME_SY) layer_rot "scaleY" s in
  let s := connectAttr (AvarAttr AVAR_NAME_SZ) layer_rot "scaleZ" s in
  s.

(** [self.build_stack(stack)]: the method of the class of [self]. *)
Definition build_stack (c : cls) (s : stack) : stack :=
  match c with
  | ClsAbstractAvar => AbstractAvar_build_stack s
  | ClsAvarSimple => AvarSimple_build_stack s
  | ClsAvarFollicle => AvarFollicle_build_stack s
  end.

(** [AvarSimple.build], the stack part: [stack = classNode.Node()],
    [self._stack = stack], [self.build_stack(stack)]. [AvarFollicle]
    inherits this method. *)
Definition build (c : cls) : stack := build_stack c [].

Definition layer_names (s : stack) : list string := List.map layer_name s.

(** The avars connected to the layer of a given name. *)
Definition avars_driving (name : string) (s : stack) : list string :=
  List.concat
    (List.map (fun l =>
                 if String.eqb (layer_name l) name
                 then List.concat
                        (List.map (fun '(_, d) =>
                                     match d with
                                     | AvarAttr a => [a]
                                     | NodeOutput _ => []
                                     end) (layer_inputs l))
                 else []) s).

(** The order of the layers as the specification gives it. *)
Definition spec_stack_order : list string :=
  ["pos"; "follicleLayer"; "oobLayer"; "fbLayer"; "folRot"; "rotLayer"].

(** ** The out-of-bound layer of [AvarFollicle.build_stack] *)

Section OutOfBound.
Context {A : Type} `{Scalar A}.

(** The translation of a follicle of the surface at the parameters
    [(u, v)]: the surface and its follicles belong to the host. *)
Variable follicle : A -> A -> Maya.vec3 (A := A).

Record oob : Type := mkOob {
  oob_offset_u : Maya.vec3 (A := A);
  oob_offset_v : Maya.vec3 (A := A);
  oob_u_condition_out : Maya.vec3 (A := A);
  oob_v_condition_out : Maya.vec3 (A := A);
  oob_offset : Maya.vec3 (A := A)
}.

Definition zero3 : Maya.vec3 (A := A) := (s_lit 0, s_lit 0, s_lit 0).

Definition out_of_bound (attr_u_inn attr_v_inn : A) : oob :=
  let oob_step_size := s_lit (1 # 1000) in
  (* the follicles: influence, clamped in V, clamped in U *)
  let util_clamp_uv_outputR :=
    Maya.clamp attr_u_inn oob_step_size (s_sub (s_lit 1) oob_step_size) in
  let util_clamp_uv_outputG :=
    Maya.clamp attr_v_inn oob_step_size (s_sub (s_lit 1) oob_step_size) in
  let clamped_u := util_clamp_uv_outputR in
  let clamped_v := util_clamp_uv_outputG in
  let fol_influence := follicle attr_u_inn attr_v_inn in
  let fol_clamped_v := follicle attr_u_inn clamped_v in
  let fol_clamped_u := follicle clamped_u attr_v_inn in
  (* the direction to add for U and V *)
  let dir_oob_u := Maya.plusMinusAverage3 2 fol_influence fol_clamped_u in
  let dir_oob_v := Maya.plusMinusAverage3 2 fol_influence fol_clamped_v in
  (* the four threshold comparisons *)
  let condition_oob_u_neg :=
    Maya.condition 4 attr_u_inn (s_lit 0) (s_lit 1) (s_lit 0) in
  let condition_oob_u_pos :=
    Maya.condition 2 attr_u_inn (s_lit 1) (s_lit 1) (s_lit 0) in
  let condition_oob_v_neg :=
    Maya.condition 4 attr_v_inn (s_lit 0) (s_lit 1) (s_lit 0) in
  let condition_oob_v_pos :=
    Maya.condition 2 attr_v_inn (s_lit 1) (s_lit 1) (s_lit 0) in
  (* the amount of out-of-bound *)
  let oob_val_u_pos := Maya.plusMinusAverage 2 attr_u_inn (s_lit 1) in
  let oob_val_u_neg := Maya.multiplyDivide 1 attr_u_inn (s_lit (-1)) in
  let oob_val_v_pos := Maya.plusMinusAverage 2 attr_v_inn (s_lit 1) in
  let oob_val_v_neg := Maya.multiplyDivide 1 attr_v_inn (s_lit (-1)) in
  let oob_val_u :=
    Maya.condition 0 condition_oob_u_pos (s_lit 1)
                   oob_val_u_pos oob_val_u_neg in
  let oob_val_v :=
    Maya.condition 0 condition_oob_v_pos (s_lit 1)
                   oob_val_v_pos oob_val_v_neg in
  let oob_amount_u := Maya.multiplyDivide 2 oob_val_u oob_step_size in
  let oob_amount_v := Maya.multiplyDivide 2 oob_val_v oob_step_size in
  let oob_offset_u :=
    Maya.multiplyDivide3 1 (oob_amount_u, oob_amount_u, oob_amount_u)
                         dir_oob_u in
  let oob_offset_v :=
    Maya.multiplyDivide3 1 (oob_amount_v, oob_amount_v, oob_amount_v)
                         dir_oob_v in
  (* the gate of U *)
  let oob_u_condition_1 := condition_oob_u_neg in
  let oob_u_condition_2 := condition_oob_u_pos in
  let oob_u_condition_added :=
    Maya.addDoubleLinear oob_u_condition_1 oob_u_condition_2 in
  let oob_u_condition_out :=
    Maya.condition 0 oob_u_condition_added (s_lit 1) oob_offset_u zero3 in
  (* the gate of V *)
  let oob_v_condition_1 := condition_oob_v_neg in
  let oob_v_condition_2 := condition_oob_v_pos in
  let oob_v_condition_added :=
    Maya.addDoubleLinear oob_v_condition_1 oob_v_condition_2 in
  let oob_v_condition_out :=
    Maya.condition 0 oob_v_condition_added (s_lit 1) oob_offset_v zero3 in
  let oob_offset :=
    Maya.plusMinusAverage3 1 oob_u_condition_out oob_v_condition_out in
  {| oob_offset_u := oob_offset_u;
     oob_offset_v := oob_offset_v;
     oob_u_condition_out := oob_u_condition_out;
     oob_v_condition_out := oob_v_condition_out;
     oob_offset := oob_offset |}.
End OutOfBound.

(** A unit plane whose follicles stay on its border when a parameter leaves
    [0, 1]: the surface of the worked examples. *)
Definition plane_follicle (u v : Q) : Maya.vec3 (A := Q) :=
  (Maya.clamp u 0%Q 1%Q, Maya.clamp v 0%Q 1%Q, 0%Q).

(** A parameter is out of bounds when it is below 0 or above 1. *)
Definition out_of_bounds (x : Q) : bool := Q_ltb x 0 || Q_ltb 1 x.

Definition is_zero3 (p : Maya.vec3 (A := Q)) : bool :=
  let '(x, y, z) := p in Qeq_bool x 0 && Qeq_bool y 0 && Qeq_bool z 0.

End Avar.

(* ================================================================== *)
(** * scripts/omtk/modules/__init__.py: the module registry *)
(* ================================================================== *)

Module Registry.

(** A module class, known by its name. *)
Record class_def : Type := mkClass { cls_name : string }.

Section Create.
(** The values passed as [*args, **kwargs]. *)
Variable arguments : Type.

(** An instance: its class and the arguments it was constructed with. *)
Record instance : Type := mkInstance {
  inst_class : class_def;
  inst_args : arguments
}.

(** What [create] can return: a class object or an instance. *)
Inductive value : Type :=
| VClass (c : class_def)
| VInstance (i : instance).

(** The instances constructed so far, oldest first. *)
Definition world : Type := list instance.

(** Modelled from the spec: [libPython.get_class_def(cls_name,
    classModule.Module)] looks the name up among the registered module
    classes, and gives [None] when there is none of that name. *)
Definition get_class_def (catalogue : gmap string class_def)
           (cls_name : string) : option class_def :=
  catalogue !! cls_name.

(** The exception the constructor of a class raises on some arguments,
    if any. *)
Variable init_raises : class_def -> arguments -> option exn.

(** The call of the class on the arguments: the constructor runs, and
    the instance exists once it has returned. *)
Definition call_class (cls : class_def) (args : arguments) (w : world)
  : world * outcome instance :=
  match init_raises cls args with
  | Some e => (w, Raise e)
  | None => (w ++ [mkInstance cls args], Return (mkInstance cls args))
  end.

Definition create (catalogue : gmap string class_def) (cls_name : string)
           (args : arguments) (w : world) : world * outcome value :=
  match get_class_def catalogue cls_name with
  | None =>
      (w, Raise (Exception ("Can't find any module named " ++ cls_name)))
  | Some cls =>
      let '(w, r) := call_class cls args w in
      (w, bind r (fun _ => Return (VClass cls)))
  end.
End Create.

Arguments VClass {arguments} c.
Arguments VInstance {arguments} i.

(** A catalogue with two of the classes the file imports. *)
Definition example_catalogue : gmap string class_def :=
  {[ "IK" := mkClass "IK"; "DpSpine" := mkClass "DpSpine" ]}.

End Registry.

(* ================================================================== *)
(** * omtk/rigDpSpine.py: the spine module *)
(* ================================================================== *)

Module DpSpine.

(** The fields of the module that [build] reads before anything else. *)
Record DpSpine : Type := mkDpSpine {
  name : string;
  chain : list Host.node
}.

Section Build.
(** What follows the check of the chain: [Module.build], the controls,
    the ribbon and the squash network. *)
Variable build_rest : DpSpine -> Host.world -> Host.world * outcome unit.

Definition build (self : DpSpine) (w : Host.world)
  : Host.world * outcome unit :=
  if negb (List.length (chain self) =? 3)%nat then
    (w, Raise (Exception ("Expected 3 joints. Got "
                            ++ str_of_nat (List.length (chain self))
                            ++ ".")))
  else build_rest self w.
End Build.

End DpSpine.

(* ================================================================== *)
(** * omtk/classRig.py: the rig root *)
(* ================================================================== *)

Module Rig.

(** A reference to a Python object. *)
Definition ref : Type := nat.

(** The fields of a module that the rig reads and writes. *)
Record Module : Type := mkModule {
  m_name : string;
  m_node : option Host.node;   (* the primary node of the module *)
  _parent : option ref;
  root : option ref
}.

(** The module objects, by reference: two references to one module see the
    same fields. *)
Definition heap : Type := gmap ref Module.

(** A Python value held in [children] or returned by a method. *)
Inductive value : Type :=
| VNone
| VBool (b : bool)
| VInt (n : Z)
| VModule (r : ref).

Record Rig : Type := mkRig {
  self_ref : ref;
  name : string;
  children : list value
}.

Definition DEFAULT_NAME : string := "untitled".

(** [Rig.__init__(name=None)] *)
Definition __init__ (self : ref) (name : option string) : Rig :=
  {| self_ref := self;
     name := match name with
             | Some n => if String.eqb n "" then DEFAULT_NAME else n
             | None => DEFAULT_NAME
             end;
     children := [] |}.

Definition __str__ (self : Rig) : string := "<rig " ++ name self ++ "/>".

(** [__getitem__]: the item is read from [children], and the method ends
    without a [return]: the caller receives [None]. *)
Definition __getitem__ (self : Rig) (item : Z) : outcome value :=
  bind (getitem (children self) item) (fun _ => Return VNone).

Definition __len__ (self : Rig) : outcome value :=
  Return (VInt (Z.of_nat (List.length (children self)))).

Definition set_children (self : Rig) (l : list value) : Rig :=
  {| self_ref := self_ref self; name := name self; children := l |}.

Definition set_parent (p : ref) (m : Module) : Module :=
  {| m_name := m_name m; m_node := m_node m; _parent := Some p;
     root := root m |}.

Definition set_root (p : ref) (m : Module) : Module :=
  {| m_name := m_name m; m_node := m_node m; _parent := _parent m;
     root := Some p |}.

(** Assignment to an attribute of [v]: [AttributeError] when [v] is not a
    module. *)
Definition setattr (f : Module -> Module) (v : value) (h : heap)
  : heap * outcome unit :=
  match v with
  | VModule r => (alter f r h, Return tt)
  | _ => (h, Raise AttributeError)
  end.

(** [insert]: the list is changed first, then [value._parent = self]. *)
Definition insert (self : Rig) (index : Z) (v : value) (h : heap)
  : Rig * heap * outcome unit :=
  let self := set_children self (list_insert (children self) index v) in
  let '(h, r) := setattr (set_parent (self_ref self)) v h in
  (self, h, r).

(** [add_module]: [module.root = self], then the module is appended. *)
Definition add_module (self : Rig) (v : value) (h : heap)
  : Rig * heap * outcome unit :=
  match setattr (set_root (self_ref self)) v h with
  | (h, Return _) => (set_children self (children self ++ [v]), h, Return tt)
  | (h, Raise e) => (self, h, Raise e)
  end.

(** Modelled from the spec: [Module.is_built] is true iff the primary node
    of the module still resolves to a live node of the scene. *)
Definition Module_is_built (m : Module) (sc : Host.scene) : bool :=
  match m_node m with
  | Some n => Host.exists_ n sc
  | None => false
  end.

(** [child.is_built()] on an element of [children]: [None] has no such
    method. *)
Definition child_is_built (h : heap) (sc : Host.scene) (child : value)
  : outcome bool :=
  match child with
  | VModule r =>
      match h !! r with
      | Some m => Return (Module_is_built m sc)
      | None => Raise AttributeError
      end
  | _ => Raise AttributeError
  end.

(** The loop of [is_built] over the children. *)
Fixpoint any_built (h : heap) (sc : Host.scene) (l : list value)
  : outcome bool :=
  match l with
  | [] => Return false
  | child :: rest =>
      bind (child_is_built h sc child)
           (fun b => if b then Return true else any_built h sc rest)
  end.

Definition is_built (self : Rig) (h : heap) (sc : Host.scene) : outcome bool :=
  any_built h sc (children self).

Section Build.
(** The build proper: the pre-build, the build of the children and the
    post-build, from [sTime = time.time()] to [return True]. *)
Variable build_steps :
  Rig -> heap -> Host.world -> Rig * heap * Host.world * outcome value.

Definition build (self : Rig) (h : heap) (w : Host.world)
  : Rig * heap * Host.world * outcome value :=
  match is_built self h (Host.w_scene w) with
  | Raise e => (self, h, w, Raise e)
  | Return true =>
      (self, h,
       Host.warning ("Can't build " ++ __str__ self
                       ++ " because it's already built!") w,
       Return (VBool false))
  | Return false => build_steps self h w
  end.
End Build.

(** The truth value of what a method returned. *)
Definition truthy (v : value) : bool :=
  match v with
  | VNone => false
  | VBool b => b
  | VInt n => negb (n =? 0)%Z
  | VModule _ => true
  end.

End Rig.

(* ================================================================== *)
(** * scripts/omtk/fixes/fix_missing_rig_attr.py *)
(* ================================================================== *)

Module FixMissingRigAttr.

(** A network node of the scene, with what the script reads of it:
    whether [libSerialization.isNetworkInstanceOfClass] recognises it as a
    [Rig] or as a [Module], whether it has the attribute [rig], and the plug
    connected into that attribute, if any ([net.rig.isDestination()]). *)
Record network : Type := mkNet {
  net_id : Host.node;
  net_name : string;
  is_rig : bool;
  is_module : bool;
  has_rig_attr : bool;
  rig_input : option Host.node
}.

(** [pymel.addAttr(net, longName='rig', ...)] *)
Definition addAttr_rig (net : network) : network :=
  {| net_id := net_id net; net_name := net_name net; is_rig := is_rig net;
     is_module := is_module net; has_rig_attr := true;
     rig_input := rig_input net |}.

(** [pymel.connectAttr(net_rig.message, net.rig)] *)
Definition connect_rig (src : Host.node) (net : network) : network :=
  {| net_id := net_id net; net_name := net_name net; is_rig := is_rig net;
     is_module := is_module net; has_rig_attr := has_rig_attr net;
     rig_input := Some src |}.

(** [next(iter(net for net in nets if isNetworkInstanceOfClass(net, 'Rig')),
    None)] *)
Definition find_net_rig (nets : list network) : option network :=
  List.find is_rig nets.

(** The state the script leaves: the networks, and what it printed. *)
Record state : Type := mkState {
  nets : list network;
  printed : list string
}.

(** One turn of the loop on [net]. The turn can end on [net_rig.message]
    with [net_rig] being [None]; the attribute added before stays. *)
Definition fix_net (net_rig : option network) (net : network)
  : network * list string * outcome unit :=
  if negb (is_module net) then (net, [], Return tt)
  else
    let '(net, out) :=
      if negb (has_rig_attr net)
      then (addAttr_rig net,
            [("Add attribute 'rig' on " ++ net_name net)%string])
      else (net, []) in
    match rig_input net with
    | Some _ => (net, out, Return tt)
    | None =>
        match net_rig with
        | Some r => (connect_rig (net_id r) net, out, Return tt)
        | None => (net, out, Raise AttributeError)
        end
    end.

(** The loop: the networks after the one that raised are not visited. *)
Fixpoint fix_nets (net_rig : option network) (l : list network)
  : list network * list string * outcome unit :=
  match l with
  | [] => ([], [], Return tt)
  | net :: rest =>
      match fix_net net_rig net with
      | (net', out, Return _) =>
          let '(rest', out', r) := fix_nets net_rig rest in
          (net' :: rest', out ++ out', r)
      | (net', out, Raise e) => (net' :: rest, out, Raise e)
      end
  end.

Definition run (l : list network) : state * outcome unit :=
  let '(l', out, r) := fix_nets (find_net_rig l) l in
  (mkState l' out, r).

(** A module network is repaired when it has the attribute and the
    attribute is connected. *)
Definition repaired (net : network) : bool :=
  negb (is_module net)
  || (has_rig_attr net && bool_decide (is_Some (rig_input net))).

(** Nothing is left to connect on a network that is not a module, or whose
    attribute [rig] is a destination already. *)
Definition settled (net : network) : bool :=
  negb (is_module net) || bool_decide (is_Some (rig_input net)).

(** What the script should make of one network when the rig network is [r]. *)
Definition repair (r : Host.node) (net : network) : network :=
  if is_module net
  then {| net_id := net_id net; net_name := net_name net;
          is_rig := is_rig net; is_module := true; has_rig_attr := true;
          rig_input := match rig_input net with
                       | Some s => Some s
                       | None => Some r
                       end |}
  else net.

End FixMissingRigAttr.

(* ================================================================== *)
(** * omtk/classRig.py: the rest of the sequence protocol and the
      hooks of the life cycle *)
(* ================================================================== *)

Module RigSeq.
Import Rig.

(** [l[i] = x] *)
Definition list_setitem {A} (l : list A) (i : Z) (x : A) : outcome (list A) :=
  let j := norm_index (List.length l) i in
  if (j <? 0)%Z then Raise IndexError
  else if (Z.to_nat j <? List.length l)%nat
       then Return (firstn (Z.to_nat j) l ++ x :: skipn (S (Z.to_nat j)) l)
       else Raise IndexError.

(** [del l[i]] *)
Definition list_delitem {A} (l : list A) (i : Z) : outcome (list A) :=
  let j := norm_index (List.length l) i in
  if (j <? 0)%Z then Raise IndexError
  else if (Z.to_nat j <? List.length l)%nat
       then Return (firstn (Z.to_nat j) l ++ skipn (S (Z.to_nat j)) l)
       else Raise IndexError.

(** [__setitem__]: the child is replaced; its [_parent] is not written. *)
Definition __setitem__ (self : Rig) (index : Z) (v : value)
  : Rig * outcome unit :=
  match list_setitem (children self) index v with
  | Return l => (set_children self l, Return tt)
  | Raise e => (self, Raise e)
  end.

Definition __delitem__ (self : Rig) (index : Z) : Rig * outcome unit :=
  match list_delitem (children self) index with
  | Return l => (set_children self l, Return tt)
  | Raise e => (self, Raise e)
  end.

(** [__iter__]: the children in order. *)
Definition __iter__ (self : Rig) : list value := children self.

(** [__callbackNetworkPostBuild__]: [self.children = filter(None,
    self.children)] keeps the children that are true. *)
Definition __callbackNetworkPostBuild__ (self : Rig) : Rig :=
  set_children self (List.filter truthy (children self)).


(** A child that is a module of the heap and is not built. *)
Definition unbuilt (h : heap) (sc : Host.scene) (v : value) : Prop :=
  exists r m, v = VModule r /\ h !! r = Some m /\ Module_is_built m sc = false.

(** A child that is a module of the heap and is built. *)
Definition built (h : heap) (sc : Host.scene) (v : value) : Prop :=
  exists r m, v = VModule r /\ h !! r = Some m /\ Module_is_built m sc = true.

End RigSeq.

(* ================================================================== *)
(** * omtk/classRig.py: [Rig._clean_invalid_pynodes] *)
(* ================================================================== *)

Module CleanPyNodes.

(** The values an attribute of the rig can hold, by the tests the method
    makes on them: a [pymel.PyNode] or a [pymel.Attribute], a list, a set or
    a tuple, or anything else (a string, a module, a control). *)
#[local] Unset Elimination Schemes.
Inductive pyval : Type :=
| PNone
| PStr (s : string)
| PObject (id : nat)
| PNode (n : Host.node)
| PAttribute (n : Host.node) (a : string)
| PList (l : list pyval)
| PSet (l : list pyval)
| PTuple (l : list pyval).
#[local] Set Elimination Schemes.

(** What the loop can raise: [val[i]] on a set is a [TypeError], [val.pop]
    on a tuple an [AttributeError]. *)
Inductive error : Type := TypeError | AttributeError.

(** [self.__dict__], in the order [iteritems] visits it. *)
Definition dict : Type := list (string * pyval).

Section Clean.
(** [libPymel.is_valid_PyNode]: the handle resolves in the scene. *)
Variable is_valid_PyNode : pyval -> bool.

(** [fnCanDelete = lambda x: isinstance(x, (pymel.PyNode, pymel.Attribute))
    and not libPymel.is_valid_PyNode(x)] *)
Definition fnCanDelete (x : pyval) : bool :=
  match x with
  | PNode _ | PAttribute _ _ => negb (is_valid_PyNode x)
  | _ => false
  end.

Definition keep (x : pyval) : bool := negb (fnCanDelete x).

(** One turn of the loop: the new value of the attribute, or what the turn
    raised. On a list the items are popped from the last index to the first,
    which keeps the others in order. *)
Definition clean_value (val : pyval) : pyval + error :=
  if fnCanDelete val then inl PNone
  else
    match val with
    | PList l =>
        match List.filter keep l with
        | [] => inl PNone
        | l' => inl (PList l')
        end
    | PSet l =>
        match l with
        | [] => inl PNone
        | _ => inr TypeError
        end
    | PTuple l =>
        if existsb fnCanDelete l then inr AttributeError
        else match l with
             | [] => inl PNone
             | _ => inl val
             end
    | _ => inl val
    end.

(** [_clean_invalid_pynodes]: the attributes after the one that raised are
    not visited. *)
Fixpoint _clean_invalid_pynodes (d : dict) : dict * option error :=
  match d with
  | [] => ([], None)
  | (key, val) :: rest =>
      match clean_value val with
      | inl val' =>
          let '(rest', e) := _clean_invalid_pynodes rest in
          ((key, val') :: rest', e)
      | inr e => ((key, val) :: rest, Some e)
      end
  end.

(** The attribute holds no set that has items and no tuple with a dead
    node. *)
Definition indexable (val : pyval) : bool :=
  match val with
  | PSet (_ :: _) => false
  | PTuple l => negb (existsb fnCanDelete l)
  | _ => true
  end.

(** The value is clean: it is not a dead node; a list or a tuple holds no
    dead node and is not empty; it is not a set. *)
Definition clean (val : pyval) : bool :=
  negb (fnCanDelete val)
  && match val with
     | PList l | PTuple l => forallb keep l && negb (Nat.eqb (List.length l) 0)
     | PSet _ => false
     | _ => true
     end.
End Clean.

(** The attributes [Rig.__init__] sets. *)
Definition Rig_dict (name : string) : dict :=
  [("name", PStr name); ("children", PList []); ("grp_anms", PNone);
   ("grp_geos", PNone); ("grp_jnts", PNone); ("grp_rigs", PNone);
   ("layer_anm", PNone); ("layer_geo", PNone); ("layer_rig", PNone)].

End CleanPyNodes.

(* ================================================================== *)
(** * omtk/libs/libCtrlShapes.py: the normal of the needle, and the
      double needle *)
(* ================================================================== *)

Module libCtrlShapesMore.
Import libCtrlShapes.
Local Open Scope Q_scope.

(** Cosine and sine of the angles the needle is rotated by: 0, 90, -90 and
    180 degrees. *)
Definition cos_deg (a : Q) : Q :=
  if Qeq_bool a 0 then 1 else if Qeq_bool a 180 then - (1) else 0.

Definition sin_deg (a : Q) : Q :=
  if Qeq_bool a 90 then 1 else if Qeq_bool a (- (90)) then - (1) else 0.

(** The rotations of the host about X and about Z. *)
Definition rot_x (a : Q) (p : point) : point :=
  let '(x, y, z) := p in
  (x, y * cos_deg a - z * sin_deg a, y * sin_deg a + z * cos_deg a).

Definition rot_z (a : Q) (p : point) : point :=
  let '(x, y, z) := p in
  (x * cos_deg a - y * sin_deg a, x * sin_deg a + y * cos_deg a, z).

(** Where a point of the shapes of a needle is in the space of its parent:
    the rotation set on [shape1] applies to the three shapes parented under
    it, whether [makeIdentity] then bakes it into the points or not. *)
Definition placed (n : needle) (p : point) : point :=
  rot_z (rotateZ n) (rot_x (rotateX n) p).

Definition placed_curve (n : needle) (c : curve) : curve :=
  List.map (placed n) c.

(** [normal_inv = (normal[0] * -1, normal[1] * -1, normal[2] * -1)] *)
Definition normal_inv (normal : point) : point :=
  let '(x, y, z) := normal in (x * - (1), y * - (1), z * - (1)).

(** [create_shape_double_needle]: the two needles whose shapes end under
    [shape1]. *)
Definition create_shape_double_needle (normal : point) (size : Q)
           (length radius : option Q) : needle * needle :=
  (create_shape_needle size length radius normal,
   create_shape_needle size length radius (normal_inv normal)).

(** The normal has a component that is not zero. *)
Definition nonzero_normal (normal : point) : bool :=
  let '(x, y, z) := normal in truthy x || truthy y || truthy z.

(** The sign of a number, as a number. *)
Definition sgn (x : Q) : Q := if Q_ltb x 0 then - (1) else 1.

(** The axis a normal selects: its first component that is not zero, in the
    order X, Y, Z, with its sign; Y when the normal is zero. *)
Definition needle_axis (normal : point) : point :=
  let '(x, y, z) := normal in
  if truthy x then (sgn x, 0, 0)
  else if truthy y then (0, sgn y, 0)
  else if truthy z then (0, 0, sgn z)
  else (0, 1, 0).

(** Equality of points and of curves up to the equality of rationals. *)
Definition point_eq (p q : point) : Prop :=
  let '(x, y, z) := p in
  let '(x', y', z') := q in
  x == x' /\ y == y' /\ z == z'.


Definition scale_point (k : Q) (p : point) : point :=
  let '(x, y, z) := p in (k * x, k * y, k * z).


(** The last point of the shaft, placed. *)
Definition shaft_tip (n : needle) : point :=
  placed n (List.last (shape1 n) (0, 0, 0)).

(** The segments of an outline: each point with the next one. *)
Fixpoint segments (c : curve) : list (point * point) :=
  match c with
  | p :: (q :: _) as rest => (p, q) :: segments rest
  | _ => []
  end.

End libCtrlShapesMore.

(* ================================================================== *)
(** * omtk/modules/rigFaceAvar.py: the parameters of the follicle, and
      the unbuild of the avars with a ctrl model *)
(* ================================================================== *)

Module AvarMore.

Section UV.
Context {A : Type} `{Scalar A}.

(** [_get_follicle_relative_uv_attr]: the two [multiplyDivide] nodes. *)
Definition _get_follicle_relative_uv_attr
           (attr_lr attr_ud attr_multiplier_lr attr_multiplier_ud : A) : A * A :=
  let attr_u := Maya.multiplyDivide 1 attr_lr attr_multiplier_lr in
  let attr_v := Maya.multiplyDivide 1 attr_ud attr_multiplier_ud in
  (attr_u, attr_v).

(** [_get_follicle_absolute_uv_attr]: the base parameters are added; the
    sums are what [surfaceU] and [surfaceV] receive. *)
Definition _get_follicle_absolute_uv_attr
           (_attr_u_base _attr_v_base : A)
           (attr_lr attr_ud attr_multiplier_lr attr_multiplier_ud : A) : A * A :=
  let '(attr_u_relative, attr_v_relative) :=
    _get_follicle_relative_uv_attr attr_lr attr_ud
                                   attr_multiplier_lr attr_multiplier_ud in
  let attr_u_cur := Maya.addDoubleLinear _attr_u_base attr_u_relative in
  let attr_v_cur := Maya.addDoubleLinear _attr_v_base attr_v_relative in
  (attr_u_cur, attr_v_cur).

(** The nodes of the [fbLayer]: [avar_fb * length_u * multiplierFb]. *)
Definition attr_get_fb_adjusted (attr_fb _attr_length_u attr_multiplier_fb : A)
  : A :=
  let attr_get_fb := Maya.multiplyDivide 1 attr_fb _attr_length_u in
  Maya.multiplyDivide 1 attr_get_fb attr_multiplier_fb.
End UV.

(** A plane given by a corner [P] and its two edges [Ea] and [Eb], whose
    follicles stay on the border when a parameter leaves [0, 1]. *)
Definition edge_follicle (P Ea Eb : Maya.vec3 (A := Q)) (u v : Q)
  : Maya.vec3 (A := Q) :=
  let '(px, py_, pz) := P in
  let '(ax, ay, az) := Ea in
  let '(bx, by_, bz) := Eb in
  let cu := Maya.clamp u 0%Q 1%Q in
  let cv := Maya.clamp v 0%Q 1%Q in
  (px + cu * ax + cv * bx, py_ + cu * ay + cv * by_,
   pz + cu * az + cv * bz)%Q.


Definition vec3_eq (p q : Maya.vec3 (A := Q)) : Prop :=
  let '(x, y, z) := p in
  let '(x', y', z') := q in
  (x == x' /\ y == y' /\ z == z')%Q.

(** ** Unbuild *)


(** The defaults of [AbstractAvar.__init__]. *)
Definition default_multiplier_lr : Q := 25 # 100.
Definition default_multiplier_ud : Q := 25 # 100.
Definition default_multiplier_fb : Q := 10 # 100.

Section Unbuild.
(** The value of an attribute of the scene, [None] when the attribute does
    not exist. *)
Variable attr_get : Avar.attr -> option Q.

(** [if attr and attr.exists(): multiplier = attr.get()] *)
Definition held (a : option Avar.attr) (multiplier : Q) : Q :=
  match a with
  | Some a => match attr_get a with
              | Some v => v
              | None => multiplier
              end
  | None => multiplier
  end.


(** [str(self)], the nomenclature, the loop of [hold_avars] and
    [Module.unbuild], as for [Avar.unbuild]; [str(e)] and the [unbuild] of
    the ctrl model, which can raise. *)
Variable str_self : Avar.AbstractAvar -> string.
Variable resolve : Avar.AbstractAvar -> string -> string.
Variable hold_connections :
  Avar.AbstractAvar -> Host.node -> Host.world -> Host.world.
Variable Module_unbuild :
  Avar.Module -> Host.world -> Avar.Module * Host.world.
Variable str_exn : exn -> string.
Variable model_unbuild : nat -> Host.world -> Host.world * outcome unit.



End Unbuild.



End AvarMore.

(* ================================================================== *)
(** * rigIK.py, both versions: the position of the swivel ctrl *)
(* ================================================================== *)

Module IKSwivel.
Local Open Scope R_scope.

(** The exceptions of this code: a sequence index out of range and the
    division of a float by zero. *)
Inductive exn : Type :=
| IndexError
| ZeroDivisionError.

Inductive outcome (A : Type) : Type :=
| Return (a : A)
| Raise (e : exn).
Arguments Return {A} a.
Arguments Raise {A} e.

Definition bind {A B} (m : outcome A) (k : A -> outcome B) : outcome B :=
  match m with
  | Return a => k a
  | Raise e => Raise e
  end.

Notation "'do' x <- m ;; k" := (bind m (fun x => k))
  (at level 10, x name, m at level 99, k at level 200).

(** [l[i]] *)
Definition getitem {A} (l : list A) (i : Z) : outcome A :=
  match Py.getitem l i with
  | Py.Return a => Return a
  | Py.Raise _ => Raise IndexError
  end.

(** [l[1:stop]]: a negative [stop] counts from the end, and the bounds are
    clipped to the sequence; a slice never raises. *)
Definition slice_from_1 {A} (l : list A) (stop : Z) : list A :=
  let len := Z.of_nat (List.length l) in
  let stop :=
    if (stop <? 0)%Z then Z.max 0 (stop + len) else Z.min stop len in
  skipn 1 (firstn (Z.to_nat stop) l).

(** [a / b] on floats *)
Definition float_div (a b : R) : outcome R :=
  if R_eqb b 0 then Raise ZeroDivisionError else Return (a / b).

(** [pymel.datatypes.Vector] with the operators the code uses. *)
Definition Vector : Type := (R * R * R)%type.

Definition vadd (a b : Vector) : Vector :=
  let '(ax, ay, az) := a in
  let '(bx, by_, bz) := b in
  (ax + bx, ay + by_, az + bz).

Definition vsub (a b : Vector) : Vector :=
  let '(ax, ay, az) := a in
  let '(bx, by_, bz) := b in
  (ax - bx, ay - by_, az - bz).

Definition vmul (a : Vector) (k : R) : Vector :=
  let '(ax, ay, az) := a in (ax * k, ay * k, az * k).

Definition length (a : Vector) : R :=
  let '(ax, ay, az) := a in sqrt (ax * ax + ay * ay + az * az).

(** [normal()]: the vector over its length; the null vector is its own
    normal. *)
Definition normal (a : Vector) : Vector :=
  let '(ax, ay, az) := a in
  let n := length a in
  (ax / n, ay / n, az / n).

(** A joint of the input chain: [t.get()], its translation under its
    parent, and [getTranslation(space='world')]. *)
Record joint : Type := mkJoint { t : Vector; getTranslation : Vector }.

(** The four lines that follow the chain length, the same in both versions. *)
Definition swivel_pos (input : list joint) (p3ChainS p3ChainE : Vector)
           (fChainLength : R) : outcome Vector :=
  do j1 <- getitem input 1 ;;
  do fRatio <- float_div (length (t j1)) fChainLength ;;
  let p3SwivelBase := vadd (vmul (vsub p3ChainE p3ChainS) fRatio) p3ChainS in
  do j1' <- getitem input 1 ;;
  let p3SwivelDir := normal (vsub (getTranslation j1') p3SwivelBase) in
  Return (vadd p3SwivelBase (vmul p3SwivelDir fChainLength)).

(** [IK.calc_swivel_pos] of omtk/rigging/autorig/rigIK.py *)
Definition calc_swivel_pos (input : list joint) (iCtrlIndex : Z)
           (_chain_length : R) : outcome Vector :=
  do j0 <- getitem input 0 ;;
  let p3ChainS := getTranslation j0 in
  do jE <- getitem input iCtrlIndex ;;
  let p3ChainE := getTranslation jE in
  swivel_pos input p3ChainS p3ChainE _chain_length.

(** The loop of the legacy [IK.Build] over [aInput[1:iCtrlIndex + 1]]. *)
Definition chain_length (joints : list joint) : R :=
  fold_left (fun fChainLength oInput => fChainLength + length (t oInput))
            joints 0.

(** The legacy [IK.Build] of rigging/AutoRig/rigIK.py, up to the position
    of the swivel: the chain length and the position. *)
Definition Build_swivel (aInput : list joint) (iCtrlIndex : Z)
  : outcome (R * Vector) :=
  do oChainS <- getitem aInput 0 ;;
  do oChainE <- getitem aInput iCtrlIndex ;;
  let fChainLength := chain_length (slice_from_1 aInput (iCtrlIndex + 1)) in
  let p3ChainS := getTranslation oChainS in
  let p3ChainE := getTranslation oChainE in
  do p3SwivelPos <- swivel_pos aInput p3ChainS p3ChainE fChainLength ;;
  Return (fChainLength, p3SwivelPos).

(** The point the direction of the swivel starts from. *)
Definition swivel_base (S E : Vector) (fRatio : R) : Vector :=
  vadd (vmul (vsub E S) fRatio) S.

End IKSwivel.

(* ================================================================== *)
(** * Theorems *)
(* ================================================================== *)

Lemma R_ltb_true (a b : R) : R_ltb a b = true <-> (a < b)%R.
Proof. unfold R_ltb; destruct (Rlt_dec a b); split; (congruence || tauto). Qed.

Lemma R_ltb_false (a b : R) : R_ltb a b = false <-> (b <= a)%R.
Proof.
  unfold R_ltb; destruct (Rlt_dec a b); split; intros; try congruence; lra.
Qed.


Lemma Q2R_1 : Q2R 1 = 1%R.
Proof. unfold Q2R; simpl; lra. Qed.

(** C7. In the legacy IK module with [bStretch = True], the factor applied to
    the chain joints is [max(1.0, D/L)] for every control distance [D] and
    chain length [L]: it is never below 1.0, and (for a positive chain
    length) it exceeds 1.0 exactly when [D] is past full extension. Each
    joint translation after the root is multiplied by that factor. *)
Theorem legacy_ik_stretch_is_max (D L : R) :
  LegacyIK.attStretch D L = Rmax 1 (D / L)
  /\ (1 <= LegacyIK.attStretch D L)%R
  /\ ((0 < L)%R -> ((1 < LegacyIK.attStretch D L)%R <-> (L < D)%R))
  /\ (forall joints : list (Maya.vec3 (A := R)),
        LegacyIK.Build_stretch true D L joints =
        List.map (fun '(x, y, z) =>
                    ((x * Rmax 1 (D / L))%R, (y * Rmax 1 (D / L))%R,
                     (z * Rmax 1 (D / L))%R)) joints).
Proof.
  assert (E : LegacyIK.attStretch D L = Rmax 1 (D / L)).
  { unfold LegacyIK.attStretch, Maya.condition, Maya.multiplyDivide; cbn.
    rewrite Q2R_1. unfold Rmax.
    destruct (R_ltb 1 (D / L)) eqn:Hc.
    - apply R_ltb_true in Hc. destruct (Rle_dec 1 (D / L)); lra.
    - apply R_ltb_false in Hc. destruct (Rle_dec 1 (D / L)); lra. }
  split; [exact E|]. split; [rewrite E; apply Rmax_l|]. split.
  - intros HL. rewrite E. split; intros Hlt.
    + assert (1 < D / L)%R.
      { unfold Rmax in Hlt. destruct (Rle_dec 1 (D / L)); lra. }
      apply (Rmult_lt_compat_r L) in H; [|exact HL].
      unfold Rdiv in H. rewrite Rmult_assoc, Rinv_l in H; lra.
    + assert (1 < D / L)%R.
      { apply (Rmult_lt_reg_r L); [exact HL|].
        unfold Rdiv. rewrite Rmult_assoc, Rinv_l; lra. }
      unfold Rmax. destruct (Rle_dec 1 (D / L)); lra.
  - intros joints. unfold LegacyIK.Build_stretch.
    apply List.map_ext. intros [[x y] z].
    unfold LegacyIK.attNewPos, Maya.multiplyDivide3, Maya.v_map2,
      Maya.multiplyDivide. rewrite E. reflexivity.
Qed.

(** ** The soft-IK node *)

Section SoftIk.
Import SoftIkNode.
Local Open Scope R_scope.

(** The formula [e^x] is the exponential. *)
Lemma pow_e (x : R) : pow e x = exp x.
Proof.
  unfold pow, e, Rpower. rewrite ln_exp. f_equal. ring.
Qed.

Lemma half_term_S (i : nat) :
  half_term (S i) = half_term i * (1 / 2) / INR (S i).
Proof.
  unfold half_term. rewrite fact_simpl, mult_INR. simpl Rpow_def.pow.
  field. split; [apply INR_fact_neq_0 | apply not_0_INR; discriminate].
Qed.

Lemma half_term_pos (i : nat) : 0 < half_term i.
Proof.
  unfold half_term. apply Rdiv_lt_0_compat.
  - apply pow_lt; lra.
  - apply INR_fact_lt_0.
Qed.

Lemma half_term_decreasing : Un_decreasing half_term.
Proof.
  intros n. rewrite half_term_S.
  pose proof (half_term_pos n) as Hp.
  assert (Hn : 1 <= INR (S n)).
  { replace 1 with (INR 1) by reflexivity. apply le_INR. lia. }
  assert (Hi : / INR (S n) <= 1).
  { rewrite <- Rinv_1. apply Rinv_le_contravar; lra. }
  assert (Hi0 : 0 < / INR (S n)) by (apply Rinv_0_lt_compat; lra).
  unfold Rdiv. nra.
Qed.

Lemma half_series_cv :
  Un_cv (fun N => sum_f_R0 (tg_alt half_term) N) (exp (- (1 / 2))).
Proof.
  unfold exp. destruct (exist_exp (- (1 / 2))) as [l Hl]. simpl.
  intros eps Heps. destruct (Hl eps Heps) as [N HN].
  exists N. intros n Hn. specialize (HN n Hn).
  replace (sum_f_R0 (tg_alt half_term) n)
    with (sum_f_R0 (fun i => / INR (fact i) * (- (1 / 2)) ^ i) n);
    [exact HN|].
  apply sum_eq. intros i _. unfold tg_alt, half_term.
  replace (- (1 / 2)) with (-1 * (1 / 2)) by lra.
  rewrite Rpow_mult_distr. unfold Rdiv. ring.
Qed.

(** Five digits of [exp (-1/2)], from the partial sums of ranks 7 and 6 of
    its alternating series. *)
Lemma exp_neg_half_bounds :
  60653 / 100000 < exp (- (1 / 2)) < 60654 / 100000.
Proof.
  destruct (alternated_series_ineq half_term (exp (- (1 / 2))) 3
              half_term_decreasing (cv_speed_pow_fact (1 / 2))
              half_series_cv) as [Hlo Hhi].
  change (S (2 * 3)) with 7%nat in Hlo. change (2 * 3)%nat with 6%nat in Hhi.
  assert (E0 : half_term 0 = 1) by (unfold half_term; simpl; field).
  assert (E1 : half_term 1 = 1 / 2) by (rewrite half_term_S, E0; simpl; field).
  assert (E2 : half_term 2 = 1 / 8) by (rewrite half_term_S, E1; simpl; field).
  assert (E3 : half_term 3 = 1 / 48) by (rewrite half_term_S, E2; simpl; field).
  assert (E4 : half_term 4 = 1 / 384) by (rewrite half_term_S, E3; simpl; field).
  assert (E5 : half_term 5 = 1 / 3840) by (rewrite half_term_S, E4; simpl; field).
  assert (E6 : half_term 6 = 1 / 46080) by (rewrite half_term_S, E5; simpl; field).
  assert (E7 : half_term 7 = 1 / 645120) by (rewrite half_term_S, E6; simpl; field).
  cbn [sum_f_R0] in Hlo, Hhi. unfold tg_alt in Hlo, Hhi.
  rewrite E0, E1, E2, E3, E4, E5, E6 in Hhi.
  rewrite E0, E1, E2, E3, E4, E5, E6, E7 in Hlo.
  simpl Rpow_def.pow in Hlo, Hhi. lra.
Qed.

(** The node network computes the equations of the specification. *)
Lemma build_outRatio_spec (i : inputs) :
  outRatio (build i) =
  spec_outRatio (distanceBetween (inMatrixS i) (inMatrixE i))
                (inChainLength i) (inRatio i) (inStretch i).
Proof.
  unfold build, spec_outRatio, spec_blended, spec_effective,
    spec_softTargetDist, spec_delta, spec_safeDist, spec_softDist.
  cbn [outRatio]. unfold Maya.blendTwoAttr, Maya.condition, Maya.condition_test.
  cbn [s_eqb s_ltb s_add s_sub s_mul s_lit R_Scalar]. rewrite Q2R_1.
  unfold R_eqb, R_ltb. rewrite pow_e.
  destruct (Req_dec_T (inChainLength i * inRatio i) 0) as [Hz|Hz].
  - destruct (Rlt_dec 0 0); [lra|reflexivity].
  - match goal with
    | |- context [Rlt_dec 0 ?d] => destruct (Rlt_dec 0 d)
    end;
    try match goal with
        | |- context [exp (?d * -1)] => replace (d * -1) with (- d) by ring
        end; reflexivity.
Qed.

Lemma distance_along_x (x : R) :
  0 <= x -> distanceBetween (mkMatrix 0 0 0) (mkMatrix x 0 0) = x.
Proof.
  intros Hx. unfold distanceBetween; cbn [tx ty tz].
  replace ((0 - x) * (0 - x) + (0 - 0) * (0 - 0) + (0 - 0) * (0 - 0))
    with (x * x) by ring.
  apply sqrt_square, Hx.
Qed.

(** In the worked example the soft distance is 1 and the safe distance 9. *)
Lemma example_outRatio (S E : matrix) :
  let D := distanceBetween S E in
  outRatio (build (example_inputs S E)) =
  (if Rlt_dec 0 (D - 9) then 1 * (1 - exp (- (D - 9))) + 9 else D) / D.
Proof.
  intros D. rewrite build_outRatio_spec. cbn [example_inputs inMatrixS
    inMatrixE inChainLength inRatio inStretch]. fold D.
  unfold spec_outRatio, spec_blended, spec_effective, spec_softTargetDist,
    spec_delta, spec_safeDist, spec_softDist.
  replace (10 * (1 / 10)) with 1 by lra.
  destruct (Req_dec_T 1 0) as [H10|_]; [lra|].
  replace (10 - 1) with 9 by lra.
  replace ((D - 9) / 1) with (D - 9) by lra.
  destruct (Rlt_dec 0 (D - 9)); f_equal; lra.
Qed.
End SoftIk.

(** C1. The soft-IK node computes the equations of the specification
    ([softDist = L*r], [safeDist = L - softDist], [delta] forced to 0 when
    [softDist = 0], [softTargetDist], the effective distance selected on
    [delta > 0] and blended toward [D] by [inStretch], [outRatio] the quotient
    by [D]). With chain length 10, ratio 0.1 and no stretch: [outRatio] is 1
    at [D = 9]; at [D = 9.5] it is [(1*(1-e^-0.5)+9)/9.5], the soft target
    distance being 9.3935 and the ratio 0.9888 up to 1e-4; and it is exactly 1
    for every non-zero distance inside the safe zone. *)
Theorem softik_outRatio (i : SoftIkNode.inputs) (S E : SoftIkNode.matrix) :
  let D := SoftIkNode.distanceBetween S E in
  let o := SoftIkNode.outRatio (SoftIkNode.build (SoftIkNode.example_inputs S E)) in
  SoftIkNode.outRatio (SoftIkNode.build i) =
    SoftIkNode.spec_outRatio
      (SoftIkNode.distanceBetween (SoftIkNode.inMatrixS i) (SoftIkNode.inMatrixE i))
      (SoftIkNode.inChainLength i) (SoftIkNode.inRatio i) (SoftIkNode.inStretch i)
  /\ (D = 9%R -> o = 1%R)
  /\ (D = (19 / 2)%R ->
      o = ((1 * (1 - exp (- (1 / 2))) + 9) / (19 / 2))%R
      /\ (Rabs (SoftIkNode.spec_softTargetDist D 10 (1 / 10) - 93935 / 10000)
          < 1 / 10000)%R
      /\ (Rabs (o - 9888 / 10000) < 1 / 10000)%R)
  /\ ((0 < D <= 9)%R -> o = 1%R).
Proof.
  intros D o. split; [apply build_outRatio_spec|].
  pose proof (example_outRatio S E) as Ho. cbv zeta in Ho. fold D o in Ho.
  pose proof exp_neg_half_bounds as [Hlo Hhi].
  split; [|split].
  - intros HD. rewrite Ho, HD.
    destruct (Rlt_dec 0 (9 - 9)); [lra|]. field.
  - intros HD.
    assert (Eo : o = ((1 * (1 - exp (- (1 / 2))) + 9) / (19 / 2))%R).
    { rewrite Ho, HD. destruct (Rlt_dec 0 (19 / 2 - 9)); [|lra].
      replace (19 / 2 - 9)%R with (1 / 2)%R by lra. reflexivity. }
    split; [exact Eo|]. split.
    + rewrite HD. unfold SoftIkNode.spec_softTargetDist, SoftIkNode.spec_delta,
        SoftIkNode.spec_safeDist, SoftIkNode.spec_softDist.
      replace (10 * (1 / 10))%R with 1%R by lra.
      destruct (Req_dec_T 1 0); [lra|].
      replace ((19 / 2 - (10 - 1)) / 1)%R with (1 / 2)%R by lra.
      apply Rabs_def1; lra.
    + rewrite Eo. apply Rabs_def1.
      * apply (Rmult_lt_reg_r (19 / 2)); [lra|]. field_simplify. lra.
      * apply (Rmult_lt_reg_r (19 / 2)); [lra|]. field_simplify. lra.
  - intros [HD0 HD9]. rewrite Ho.
    destruct (Rlt_dec 0 (D - 9)); [lra|]. field. lra.
Qed.

(** The three cases of the worked example, the control on the X axis at 9,
    at 9.5 and at 0.9 from the start of the chain. *)
Lemma softik_outRatio_witness :
  let O := SoftIkNode.mkMatrix 0 0 0 in
  let o x := SoftIkNode.outRatio
               (SoftIkNode.build
                  (SoftIkNode.example_inputs O (SoftIkNode.mkMatrix x 0 0))) in
  o 9%R = 1%R
  /\ (Rabs (o (19 / 2)%R - 9888 / 10000) < 1 / 10000)%R
  /\ o (9 / 10)%R = 1%R.
Proof.
  intros O o. split; [|split].
  - pose proof (softik_outRatio (SoftIkNode.example_inputs O O) O
                  (SoftIkNode.mkMatrix 9 0 0)) as H.
    cbv zeta in H. destruct H as (_ & H9 & _).
    apply H9. apply distance_along_x. lra.
  - pose proof (softik_outRatio (SoftIkNode.example_inputs O O) O
                  (SoftIkNode.mkMatrix (19 / 2) 0 0)) as H.
    cbv zeta in H. destruct H as (_ & _ & H95 & _).
    apply H95. apply distance_along_x. lra.
  - pose proof (softik_outRatio (SoftIkNode.example_inputs O O) O
                  (SoftIkNode.mkMatrix (9 / 10) 0 0)) as H.
    cbv zeta in H. destruct H as (_ & _ & _ & Hs).
    apply Hs. rewrite distance_along_x; lra.
Defined.

(** A chain of length 2 with the control at distance 3: the factor is above 1. *)
Lemma legacy_ik_stretch_witness :
  (0 < 2)%R /\ ((1 < LegacyIK.attStretch 3%R 2%R)%R <-> (2 < 3)%R).
Proof.
  split; [lra|].
  apply (proj1 (proj2 (proj2 (legacy_ik_stretch_is_max 3 2)))). lra.
Defined.

(** The same network evaluated on rationals. *)
Example legacy_ik_stretch_eval :
  LegacyIK.attStretch (3 # 1)%Q (2 # 1)%Q = (3 # 2)%Q
  /\ LegacyIK.attStretch (1 # 1)%Q (2 # 1)%Q = 1%Q.
Proof. split; reflexivity. Qed.

(** ** The shape library *)

Section Shapes.
Import libCtrlShapes.
Local Open Scope Q_scope.

Ltac q_in :=
  first [ apply Exists_cons_hd; lra | apply Exists_cons_tl; q_in ].

Lemma cross_coordinates (c : Q) :
  Forall (fun p => Forall (fun x => Q_in x [0; c * (5 # 10); - (c * (5 # 10)); c; - c])
                          (coords p))
         (create_shape_cross c).
Proof.
  unfold create_shape_cross, Q_in.
  repeat (apply List.Forall_cons;
          [cbn [coords]; repeat (apply List.Forall_cons; [q_in|]);
           apply List.Forall_nil|]).
  apply List.Forall_nil.
Qed.

Lemma needle_shaft (s : Q) :
  shape1 (needle_default s) = [(0, 0, 0); (0, s * 4 - s * (25 # 100), 0)].
Proof. reflexivity. Qed.

Lemma needle_measures (s : Q) :
  ring_height (needle_default s) = s * 4
  /\ ring_radius (needle_default s) = s * (25 # 100)
  /\ ring_mid_radius (needle_default s) = s * (25 # 100) * (75 # 100)
  /\ shaft_length (needle_default s) = s * 4 - s * (25 # 100) - 0.
Proof. repeat split. Qed.
End Shapes.

(** C8, as the claim states it for the shaft: the shaft of
    [create_shape_needle(size=2.0)] is not 8.0 long. It stops at 7.5, where
    the head begins. *)
Lemma needle_shaft_length_counterexample :
  ~ (libCtrlShapes.shaft_length (libCtrlShapes.needle_default 2) == 4 * 2)%Q.
Proof. vm_compute. discriminate. Qed.

(** C8 (amended). [create_shape_needle(size=s)] with the default length and
    radius resolves the length to [4*s], which is the height of the centre of
    the head; the head has radius [0.25*s] and mid-radius 0.75 times that
    radius ([0.1875*s]); the shaft runs from the origin to the bottom of the
    head, at [length - radius = 3.75*s]. [create_shape_cross(size=c)] is a
    13-point outline in the plane [x = 0] whose coordinates all lie in
    [{0, +/-0.5*c, +/-c}]. *)
Theorem needle_and_cross_geometry (s c : Q) :
  let n := libCtrlShapes.needle_default s in
  (libCtrlShapes.resolve_length s None == 4 * s)%Q
  /\ (libCtrlShapes.ring_height n == 4 * s)%Q
  /\ (libCtrlShapes.ring_radius n == (25 # 100) * s)%Q
  /\ (libCtrlShapes.ring_mid_radius n == (75 # 100) * libCtrlShapes.ring_radius n)%Q
  /\ (libCtrlShapes.ring_mid_radius n == (1875 # 10000) * s)%Q
  /\ libCtrlShapes.shape1 n = [(0, 0, 0); (0, s * 4 - s * (25 # 100), 0)]%Q
  /\ (libCtrlShapes.shaft_length n == (375 # 100) * s)%Q
  /\ List.length (libCtrlShapes.create_shape_cross c) = 13%nat
  /\ Forall (fun p => fst (fst p) = 0%Q) (libCtrlShapes.create_shape_cross c)
  /\ Forall (fun p =>
               Forall (fun x =>
                         libCtrlShapes.Q_in x
                           [0; c * (5 # 10); - (c * (5 # 10)); c; - c]%Q)
                      (libCtrlShapes.coords p))
            (libCtrlShapes.create_shape_cross c).
Proof.
  intros n. unfold n.
  destruct (needle_measures s) as (Eh & Er & Em & El).
  rewrite Eh, Er, Em, El, needle_shaft.
  repeat split.
  - cbn. lra.
  - lra.
  - lra.
  - lra.
  - lra.
  - lra.
  - unfold libCtrlShapes.create_shape_cross.
    repeat (apply List.Forall_cons; [reflexivity|]). apply List.Forall_nil.
  - apply cross_coordinates.
Qed.

(** The figures of the specification: size 2.0 for the needle, 4.0 for the
    cross. *)
Example needle_and_cross_figures :
  let n := libCtrlShapes.needle_default 2 in
  (libCtrlShapes.ring_height n == 8)%Q
  /\ (libCtrlShapes.ring_radius n == 5 # 10)%Q
  /\ (libCtrlShapes.ring_mid_radius n == 375 # 1000)%Q
  /\ (libCtrlShapes.shaft_length n == 75 # 10)%Q
  /\ Forall (fun p =>
               Forall (fun x => libCtrlShapes.Q_in x [0; 2; -2; 4; -4]%Q)
                      (libCtrlShapes.coords p))
            (libCtrlShapes.create_shape_cross 4).
Proof.
  cbv zeta. repeat split; try reflexivity.
  pose proof (cross_coordinates 4) as Hc.
  eapply List.Forall_impl; [|exact Hc]. cbv beta. intros p Hp.
  eapply List.Forall_impl; [|exact Hp]. cbv beta. intros x Hx.
  unfold libCtrlShapes.Q_in in *.
  repeat match goal with
         | H : Exists _ (_ :: _) |- _ => apply Exists_cons in H; destruct H as [H|H]
         | H : Exists _ [] |- _ => apply Exists_nil in H; destruct H
         end.
  - apply Exists_cons_hd. exact Hx.
  - apply Exists_cons_tl, Exists_cons_hd. rewrite Hx. reflexivity.
  - apply Exists_cons_tl, Exists_cons_tl, Exists_cons_hd. rewrite Hx. reflexivity.
  - do 3 apply Exists_cons_tl. apply Exists_cons_hd. exact Hx.
  - do 4 apply Exists_cons_tl. apply Exists_cons_hd. exact Hx.
Qed.

(** ** The dag stack of the avars *)

Section Stack.
Import Avar.

Lemma layer_names_app (s t : stack) :
  layer_names (s ++ t) = layer_names s ++ layer_names t.
Proof. unfold layer_names. apply List.map_app. Qed.

(** Connecting a plug changes no name and no order. *)
Lemma layer_names_connectAttr (src : driver) (l : nat) (plug : string)
      (s : stack) :
  layer_names (connectAttr src l plug s) = layer_names s.
Proof.
  unfold connectAttr, layer_names. revert l.
  induction s as [|x s IH]; intros [|l]; cbn; try reflexivity.
  f_equal. apply IH.
Qed.

Lemma layer_names_append_layer (name : string) (s : stack) :
  layer_names (fst (append_layer name s)) = layer_names s ++ [name].
Proof. unfold append_layer. cbn [fst]. rewrite layer_names_app. reflexivity. Qed.

(** [AvarFollicle.build_stack] appends its five layers, in this order, under
    the layers the stack already has. *)
Lemma AvarFollicle_build_stack_names (s : stack) :
  layer_names (AvarFollicle_build_stack s) =
  layer_names s ++ ["follicleLayer"; "oobLayer"; "fbLayer"; "folRot"; "rotLayer"].
Proof.
  unfold AvarFollicle_build_stack, append_layer.
  repeat rewrite layer_names_connectAttr || rewrite layer_names_app.
  cbn [layer_names List.map layer_name].
  repeat rewrite <- List.app_assoc. reflexivity.
Qed.

Lemma AvarSimple_build_stack_names (s : stack) :
  layer_names (AvarSimple_build_stack s) = layer_names s ++ ["pos"].
Proof.
  unfold AvarSimple_build_stack, append_layer.
  repeat rewrite layer_names_connectAttr || rewrite layer_names_app.
  reflexivity.
Qed.
End Stack.

(** C2, as the claim states it: the layers of an [AvarFollicle] build are not
    [pos, follicleLayer, oobLayer, fbLayer, folRot, rotLayer]. *)
Lemma avar_follicle_stack_order_counterexample :
  Avar.layer_names (Avar.build Avar.ClsAvarFollicle) <> Avar.spec_stack_order.
Proof. vm_compute. discriminate. Qed.

(** C2 (amended). For every [AvarFollicle] build the layers of the dag stack
    are created in exactly the order [follicleLayer, oobLayer, fbLayer,
    folRot, rotLayer], appended under whatever the stack holds; there is no
    [pos] layer, and the rotation and scale avars drive [rotLayer]. The [pos]
    layer, driven by the six transform avars, is the stack of an
    [AvarSimple] build. *)
Theorem avar_follicle_stack_order (s : Avar.stack) :
  Avar.layer_names (Avar.build_stack Avar.ClsAvarFollicle s) =
    Avar.layer_names s
      ++ ["follicleLayer"; "oobLayer"; "fbLayer"; "folRot"; "rotLayer"]
  /\ Avar.layer_names (Avar.build Avar.ClsAvarFollicle) =
       ["follicleLayer"; "oobLayer"; "fbLayer"; "folRot"; "rotLayer"]
  /\ ~ In "pos" (Avar.layer_names (Avar.build Avar.ClsAvarFollicle))
  /\ Avar.avars_driving "rotLayer" (Avar.build Avar.ClsAvarFollicle) =
       ["avar_yw"; "avar_pt"; "avar_rl";
        "avar_scale_lr"; "avar_scale_ud"; "avar_scale_fb"]
  /\ Avar.layer_names (Avar.build Avar.ClsAvarSimple) = ["pos"]
  /\ Avar.avars_driving "pos" (Avar.build Avar.ClsAvarSimple) =
       ["avar_lr"; "avar_ud"; "avar_fb"; "avar_yw"; "avar_pt"; "avar_rl"].
Proof.
  split; [apply AvarFollicle_build_stack_names|].
  split; [reflexivity|]. split; [|repeat split].
  intros Hin. vm_compute in Hin.
  repeat (destruct Hin as [Hin|Hin]; [discriminate Hin|]). exact Hin.
Qed.

(** ** The out-of-bound layer *)

Section OutOfBoundFacts.
Import Avar.
Local Open Scope Q_scope.

Lemma Q_ltb_true (a b : Q) : Q_ltb a b = true <-> a < b.
Proof.
  unfold Q_ltb. rewrite Qlt_alt. destruct (a ?= b); split; congruence.
Qed.

(** A parameter is not below 0 and above 1 at once. *)
Lemma not_both_sides (x : Q) : Q_ltb x 0 = true -> Q_ltb 1 x = true -> False.
Proof. rewrite !Q_ltb_true. lra. Qed.

Variable follicle : Q -> Q -> Maya.vec3 (A := Q).

(** The gate of each axis looks at that axis alone. *)
Lemma oob_gates (U V : Q) :
  let r := out_of_bound follicle U V in
  oob_u_condition_out r = (if out_of_bounds U then oob_offset_u r else zero3)
  /\ oob_v_condition_out r = (if out_of_bounds V then oob_offset_v r else zero3).
Proof.
  cbv zeta. unfold out_of_bound, out_of_bounds.
  cbn [oob_u_condition_out oob_v_condition_out oob_offset_u oob_offset_v].
  unfold Maya.condition, Maya.condition_test, Maya.addDoubleLinear.
  cbn [s_eqb s_ltb s_add s_lit Q_Scalar].
  split.
  - destruct (Q_ltb U 0) eqn:Hn, (Q_ltb 1 U) eqn:Hp; cbn [orb];
      try reflexivity.
    destruct (not_both_sides U Hn Hp).
  - destruct (Q_ltb V 0) eqn:Hn, (Q_ltb 1 V) eqn:Hp; cbn [orb];
      try reflexivity.
    destruct (not_both_sides V Hn Hp).
Qed.

Lemma oob_offset_is_sum (U V : Q) :
  let r := out_of_bound follicle U V in
  oob_offset r =
  Maya.plusMinusAverage3 1 (oob_u_condition_out r) (oob_v_condition_out r).
Proof. reflexivity. Qed.
End OutOfBoundFacts.

(** C3, as the claim states it: with U = 1.2 and V = -0.3 on a unit plane,
    it is not the case that neither offset is applied; both are, and the
    layer receives their sum. *)
Lemma oob_both_axes_counterexample :
  let r := Avar.out_of_bound Avar.plane_follicle (12 # 10) (-3 # 10) in
  ~ (Avar.is_zero3 (Avar.oob_u_condition_out r) = true
     /\ Avar.is_zero3 (Avar.oob_v_condition_out r) = true).
Proof. vm_compute. intros [H _]. discriminate H. Qed.

(** C3 (amended). In the out-of-bound layer the extrapolated offset of each
    axis is applied exactly when that axis itself is out of bounds (its
    parameter below 0 or above 1), whatever the other axis does, and the layer
    receives the sum of the two. For U = 1.2 and V = 0.5 only the offset of U
    is applied (200 times the step between the influence follicle and the
    follicle clamped in U), the offset of V is zero; for U = 1.2 and V = -0.3
    both offsets are applied. *)
Theorem oob_gating (follicle : Q -> Q -> Maya.vec3 (A := Q)) (U V : Q) :
  let r := Avar.out_of_bound follicle U V in
  let r1 := Avar.out_of_bound follicle (12 # 10) (5 # 10) in
  let r2 := Avar.out_of_bound follicle (12 # 10) (-3 # 10) in
  Avar.oob_u_condition_out r =
    (if Avar.out_of_bounds U then Avar.oob_offset_u r else Avar.zero3)
  /\ Avar.oob_v_condition_out r =
       (if Avar.out_of_bounds V then Avar.oob_offset_v r else Avar.zero3)
  /\ Avar.oob_offset r =
       Maya.plusMinusAverage3 1 (Avar.oob_u_condition_out r)
                              (Avar.oob_v_condition_out r)
  /\ (Avar.oob_v_condition_out r1 = Avar.zero3
      /\ Avar.oob_u_condition_out r1 =
           Maya.multiplyDivide3 1
             (((12 # 10) - 1) / (1 # 1000), ((12 # 10) - 1) / (1 # 1000),
              ((12 # 10) - 1) / (1 # 1000))%Q
             (Maya.plusMinusAverage3 2 (follicle (12 # 10) (5 # 10))
                                     (follicle (1 - (1 # 1000))%Q (5 # 10))))
  /\ (Avar.oob_u_condition_out r2 = Avar.oob_offset_u r2
      /\ Avar.oob_v_condition_out r2 = Avar.oob_offset_v r2).
Proof.
  intros r r1 r2.
  destruct (oob_gates follicle U V) as [Hu Hv].
  destruct (oob_gates follicle (12 # 10) (5 # 10)) as [Hu1 Hv1].
  destruct (oob_gates follicle (12 # 10) (-3 # 10)) as [Hu2 Hv2].
  repeat split; try assumption; try reflexivity.
Qed.

(** On the unit plane the two cases of the claim evaluate to an offset of
    0.2 along U alone, and to 0.2 along U with -0.3 along V. *)
Example oob_gating_on_plane :
  let r1 := Avar.out_of_bound Avar.plane_follicle (12 # 10) (5 # 10) in
  let r2 := Avar.out_of_bound Avar.plane_follicle (12 # 10) (-3 # 10) in
  Avar.is_zero3 (Avar.oob_u_condition_out r1) = false
  /\ Avar.is_zero3 (Avar.oob_v_condition_out r1) = true
  /\ (let '(x, y, z) := Avar.oob_offset r1 in
      x == 2 # 10 /\ y == 0 /\ z == 0)%Q
  /\ Avar.is_zero3 (Avar.oob_u_condition_out r2) = false
  /\ Avar.is_zero3 (Avar.oob_v_condition_out r2) = false
  /\ (let '(x, y, z) := Avar.oob_offset r2 in
      x == 2 # 10 /\ y == -3 # 10 /\ z == 0)%Q.
Proof. vm_compute. repeat split. Qed.

(** ** Unbuilding an avar *)

Section AvarUnbuild.
Import Avar.

Variable str_self : AbstractAvar -> string.
Variable resolve : AbstractAvar -> string -> string.
Variable hold_connections :
  AbstractAvar -> Host.node -> Host.world -> Host.world.
Variable Module_unbuild : Module -> Host.world -> Module * Host.world.

Lemma grp_rig_lost_invalid (self : AbstractAvar) (sc : Host.scene) :
  grp_rig_lost self sc -> invalid_grp_rig self sc = true.
Proof.
  unfold invalid_grp_rig. intros [HN | (n & HS & Hl)].
  - rewrite HN. reflexivity.
  - rewrite HS. unfold Host.exists_. rewrite Hl.
    rewrite bool_decide_eq_false_2; [reflexivity|].
    intros [x Hx]. discriminate Hx.
Qed.

Lemma init_avars_handles (self : AbstractAvar) :
  avar_handles (init_avars self) = List.repeat None 9.
Proof. reflexivity. Qed.

Lemma set_base_handles (self : AbstractAvar) (b : Module) :
  avar_handles (set_base self b) = avar_handles self
  /\ avar_network (set_base self b) = avar_network self.
Proof. split; reflexivity. Qed.

(** Whatever [hold_avars] did, [unbuild] ends with the nine handles reset. *)
Lemma unbuild_resets_handles (self : AbstractAvar) (w : Host.world) :
  avar_handles
    (fst (unbuild str_self resolve hold_connections Module_unbuild self w))
  = List.repeat None 9.
Proof.
  unfold unbuild.
  destruct (hold_avars str_self resolve hold_connections self w) as [s1 w1].
  destruct (Module_unbuild (base (init_avars s1)) w1) as [b w2].
  reflexivity.
Qed.
End AvarUnbuild.

(** C10. If, when [AbstractAvar.unbuild] is called, the handle [grp_rig] is
    [None] or no longer resolves to a live node, then [hold_avars] logs a
    warning and returns: the scene is unchanged (no backup node is created)
    and [avar_network] keeps its value, so it stays unset when it was; and
    [unbuild] completes, going on with the [unbuild] of the base class, all
    nine avar handles being [None] at the end. *)
Theorem unbuild_with_lost_grp_rig
        (str_self : Avar.AbstractAvar -> string)
        (resolve : Avar.AbstractAvar -> string -> string)
        (hold_connections :
           Avar.AbstractAvar -> Host.node -> Host.world -> Host.world)
        (Module_unbuild : Avar.Module -> Host.world -> Avar.Module * Host.world)
        (self : Avar.AbstractAvar) (w : Host.world) :
  Avar.grp_rig_lost self (Host.w_scene w) ->
  let msg :=
    ("Can't hold avars, invalid grp_rig in " ++ str_self self ++ "!")%string in
  let held := Avar.hold_avars str_self resolve hold_connections self w in
  let done :=
    Avar.unbuild str_self resolve hold_connections Module_unbuild self w in
  held = (self, Host.warning msg w)
  /\ Host.w_scene (snd held) = Host.w_scene w
  /\ Host.w_log (snd held) = Host.w_log w ++ [msg]
  /\ Avar.avar_network (fst held) = Avar.avar_network self
  /\ (Avar.avar_network self = None -> Avar.avar_network (fst done) = None)
  /\ Avar.avar_handles (fst done) = List.repeat None 9
  /\ done =
       (Avar.set_base (Avar.init_avars self)
          (fst (Module_unbuild (Avar.base self) (Host.warning msg w))),
        snd (Module_unbuild (Avar.base self) (Host.warning msg w))).
Proof.
  intros Hlost msg held done.
  assert (Eh : held = (self, Host.warning msg w)).
  { unfold held, Avar.hold_avars.
    rewrite (grp_rig_lost_invalid self _ Hlost). reflexivity. }
  assert (Ed : done =
       (Avar.set_base (Avar.init_avars self)
          (fst (Module_unbuild (Avar.base self) (Host.warning msg w))),
        snd (Module_unbuild (Avar.base self) (Host.warning msg w)))).
  { unfold done, Avar.unbuild. fold held. rewrite Eh.
    change (Avar.base (Avar.init_avars self)) with (Avar.base self).
    destruct (Module_unbuild (Avar.base self) (Host.warning msg w)) as [b w2].
    reflexivity. }
  split; [exact Eh|]. rewrite Eh. cbn [fst snd].
  repeat split; try reflexivity.
  - intros Hn. rewrite Ed. cbn [fst]. exact Hn.
  - apply unbuild_resets_handles.
  - exact Ed.
Qed.

(** An avar whose [grp_rig] was deleted from the scene, and one that never
    had any; the base class deletes nothing and clears its two groups. *)
Lemma unbuild_with_lost_grp_rig_witness :
  let sc := Host.mkScene {[ 1%nat := Host.mkInfo "transform" "jaw_grp" ]} 5 in
  let w := Host.mkWorld sc [] in
  let avar g :=
    Avar.mkAvar (Avar.mkModule "jaw" g None) None
                (Some (3%nat, "avar_ud")) None None None None None None None None in
  let str_self (a : Avar.AbstractAvar) := Avar.name (Avar.base a) in
  let resolve (_ : Avar.AbstractAvar) (t : string) := t in
  let transfer (_ : Avar.AbstractAvar) (_ : Host.node) (w : Host.world) := w in
  let Module_unbuild (m : Avar.Module) (w : Host.world) :=
    (Avar.mkModule (Avar.name m) None None, w) in
  Avar.avar_handles
    (fst (Avar.unbuild str_self resolve transfer Module_unbuild
            (avar (Some 3%nat)) w)) = List.repeat None 9
  /\ Avar.avar_handles
       (fst (Avar.unbuild str_self resolve transfer Module_unbuild
               (avar None) w)) = List.repeat None 9.
Proof.
  intros sc w avar str_self resolve transfer Module_unbuild. split.
  - refine (proj1 (proj2 (proj2 (proj2 (proj2 (proj2
      (unbuild_with_lost_grp_rig str_self resolve transfer Module_unbuild
         (avar (Some 3%nat)) w _))))))).
    right. exists 3%nat. split; reflexivity.
  - refine (proj1 (proj2 (proj2 (proj2 (proj2 (proj2
      (unbuild_with_lost_grp_rig str_self resolve transfer Module_unbuild
         (avar None) w _))))))).
    left. reflexivity.
Defined.

(** With a live [grp_rig] the backup node is created. *)
Example hold_avars_live_grp_rig :
  let sc := Host.mkScene {[ 3%nat := Host.mkInfo "transform" "jaw_rig" ]} 5 in
  let w := Host.mkWorld sc [] in
  let self :=
    Avar.mkAvar (Avar.mkModule "jaw" (Some 3%nat) None) None
                None None None None None None None None None in
  let held :=
    Avar.hold_avars (fun a => Avar.name (Avar.base a)) (fun _ t => t)
                    (fun _ _ w => w) self w in
  Avar.avar_network (fst held) = Some 5%nat
  /\ Host.exists_ 5 (Host.w_scene (snd held)) = true
  /\ Host.w_log (snd held) = [].
Proof. cbv zeta. repeat split. Qed.

(** ** The module registry *)

(** C4. [create(cls_name, ...)] on a name that is not registered raises an
    exception whose message ends with the requested name, and constructs
    nothing; on a registered name it calls the class on the given arguments
    (the instance is constructed) and returns the class object itself, which
    is not the new instance. *)
Theorem registry_create (arguments : Type)
        (init_raises : Registry.class_def -> arguments -> option exn)
        (catalogue : gmap string Registry.class_def)
        (cls_name : string) (args : arguments)
        (w : Registry.world arguments) :
  (catalogue !! cls_name = None ->
   Registry.create arguments init_raises catalogue cls_name args w =
     (w, Raise (Exception ("Can't find any module named " ++ cls_name))))
  /\ (forall cls,
        catalogue !! cls_name = Some cls ->
        init_raises cls args = None ->
        Registry.create arguments init_raises catalogue cls_name args w =
          (w ++ [Registry.mkInstance arguments cls args],
           Return (Registry.VClass cls))
        /\ forall i,
             snd (Registry.create arguments init_raises catalogue cls_name
                                  args w)
             <> Return (Registry.VInstance i)).
Proof.
  unfold Registry.create, Registry.get_class_def, Registry.call_class. split.
  - intros ->. reflexivity.
  - intros cls -> ->. cbn. split; [reflexivity|]. intros i Hi. discriminate Hi.
Qed.

(** [create("Leg")] and [create("IK", "arm")] on a catalogue holding IK and
    DpSpine, no constructor failing. *)
Lemma registry_create_witness :
  let create :=
    Registry.create (list string) (fun _ _ => None) Registry.example_catalogue in
  create "Leg" ["leg"] [] =
    ([], Raise (Exception "Can't find any module named Leg"))
  /\ create "IK" ["arm"] [] =
       ([Registry.mkInstance (list string) (Registry.mkClass "IK") ["arm"]],
        Return (Registry.VClass (Registry.mkClass "IK"))).
Proof.
  intros create. split.
  - apply (proj1 (registry_create (list string) (fun _ _ => None)
                    Registry.example_catalogue "Leg" ["leg"] [])).
    reflexivity.
  - apply (proj2 (registry_create (list string) (fun _ _ => None)
                    Registry.example_catalogue "IK" ["arm"] [])
                 (Registry.mkClass "IK")); reflexivity.
Defined.

(** ** The spine module *)

(** C5. [DpSpine.build] raises its configuration error whenever the chain
    does not hold exactly 3 joints, and raises it first: the world it leaves
    is the world it was given. With exactly 3 joints the check is passed and
    the build goes on. *)
Theorem dpspine_build_joint_count
        (build_rest : DpSpine.DpSpine -> Host.world -> Host.world * outcome unit)
        (self : DpSpine.DpSpine) (w : Host.world) :
  (List.length (DpSpine.chain self) <> 3%nat ->
   DpSpine.build build_rest self w =
     (w, Raise (Exception ("Expected 3 joints. Got "
                             ++ str_of_nat (List.length (DpSpine.chain self))
                             ++ "."))))
  /\ (List.length (DpSpine.chain self) = 3%nat ->
      DpSpine.build build_rest self w = build_rest self w).
Proof.
  unfold DpSpine.build. split; intros Hlen.
  - apply Nat.eqb_neq in Hlen. rewrite Hlen. reflexivity.
  - apply Nat.eqb_eq in Hlen. rewrite Hlen. reflexivity.
Qed.

(** A chain of two joints and a chain of three, the rest of the build
    creating one node. *)
Lemma dpspine_build_joint_count_witness :
  let w := Host.mkWorld (Host.mkScene empty 0) [] in
  let build_rest (_ : DpSpine.DpSpine) (w : Host.world) :=
    (Host.mkWorld (fst (Host.createNode "transform" "ctrl" (Host.w_scene w)))
                  (Host.w_log w), Return tt) in
  DpSpine.build build_rest (DpSpine.mkDpSpine "spine" [1; 2]%nat) w =
    (w, Raise (Exception "Expected 3 joints. Got 2."))
  /\ DpSpine.build build_rest (DpSpine.mkDpSpine "spine" [1; 2; 3]%nat) w =
       build_rest (DpSpine.mkDpSpine "spine" [1; 2; 3]%nat) w.
Proof.
  intros w build_rest. split.
  - apply (proj1 (dpspine_build_joint_count build_rest
                    (DpSpine.mkDpSpine "spine" [1; 2]%nat) w)).
    cbn. lia.
  - apply (proj2 (dpspine_build_joint_count build_rest
                    (DpSpine.mkDpSpine "spine" [1; 2; 3]%nat) w)).
    reflexivity.
Defined.

(** ** The rig root *)

Section RigFacts.
Import Rig.

(** [is_built] answers [True] only on a built child met before any [None]. *)
Lemma any_built_true (h : heap) (sc : Host.scene) (l : list value) :
  any_built h sc l = Return true ->
  exists r m, In (VModule r) l /\ h !! r = Some m /\ Module_is_built m sc = true.
Proof.
  induction l as [|child rest IH]; cbn [any_built]; [discriminate|].
  destruct child as [| b | n | r]; cbn; try discriminate.
  destruct (h !! r) as [m|] eqn:Hm; cbn; [|discriminate].
  destruct (Module_is_built m sc) eqn:Hb.
  - intros _. exists r, m. repeat split; [left; reflexivity|exact Hm|exact Hb].
  - intros H. destruct (IH H) as (r' & m' & Hin & Hm' & Hb').
    exists r', m'. repeat split; [right; exact Hin|exact Hm'|exact Hb'].
Qed.

Lemma getitem_valid {A : Type} (l : list A) (i : Z) :
  (0 <= i < Z.of_nat (List.length l))%Z ->
  exists a, nth_error l (Z.to_nat i) = Some a /\ getitem l i = Return a.
Proof.
  intros [H0 Hl]. unfold getitem, norm_index.
  destruct (i <? 0)%Z eqn:Hneg; [apply Z.ltb_lt in Hneg; lia|]. rewrite Hneg.
  destruct (nth_error l (Z.to_nat i)) as [a|] eqn:Hn.
  - exists a. split; reflexivity.
  - apply nth_error_None in Hn. lia.
Qed.

(** At every valid index the sequence holds an item and [rig[i]] is [None]. *)
Lemma rig_getitem_valid_index (self : Rig) (i : Z) :
  (0 <= i < Z.of_nat (List.length (children self)))%Z ->
  exists child,
    getitem (children self) i = Return child
    /\ __getitem__ self i = Return VNone.
Proof.
  intros Hi. destruct (getitem_valid (children self) i Hi) as (a & _ & Ha).
  exists a. split; [exact Ha|]. unfold __getitem__. rewrite Ha. reflexivity.
Qed.

Lemma append_assoc (a b c : string) :
  ((a ++ b) ++ c)%string = (a ++ b ++ c)%string.
Proof.
  induction a as [|x a IH]; [reflexivity|].
  change (String x ((a ++ b) ++ c) = String x (a ++ b ++ c))%string.
  rewrite IH. reflexivity.
Qed.

(** The message of the warning, with [str(self)] written out. *)
Lemma build_warning_message (self : Rig) :
  ("Can't build " ++ __str__ self ++ " because it's already built!")%string =
  ("Can't build <rig " ++ name self ++ "/> because it's already built!")%string.
Proof.
  unfold __str__.
  change ("/> because it's already built!")%string
    with ("/>" ++ " because it's already built!")%string.
  rewrite <- (append_assoc (name self)). reflexivity.
Qed.

(** [len(rig)] is the number of children. *)
Lemma rig_len (self : Rig) :
  __len__ self = Return (VInt (Z.of_nat (List.length (children self)))).
Proof. reflexivity. Qed.

Lemma list_insert_at {A : Type} (l : list A) (i : Z) (x : A) :
  (0 <= i <= Z.of_nat (List.length l))%Z ->
  nth_error (list_insert l i x) (Z.to_nat i) = Some x
  /\ List.length (list_insert l i x) = S (List.length l).
Proof.
  intros [H0 Hl]. unfold list_insert, norm_index.
  destruct (i <? 0)%Z eqn:Hneg; [apply Z.ltb_lt in Hneg; lia|].
  rewrite Z.max_r by lia.
  assert (Hlen : List.length (firstn (Z.to_nat i) l) = Z.to_nat i).
  { apply firstn_length_le. lia. }
  split.
  - rewrite nth_error_app2 by lia. rewrite Hlen, Nat.sub_diag. reflexivity.
  - rewrite List.length_app. cbn [List.length].
    rewrite Nat.add_succ_r, <- List.length_app, firstn_skipn. reflexivity.
Qed.

(** [insert(i, m)] places [m] at index [i] and stamps its [_parent]. *)
Lemma rig_insert (self : Rig) (i : Z) (r : ref) (m : Module) (h : heap) :
  (0 <= i <= Z.of_nat (List.length (children self)))%Z ->
  h !! r = Some m ->
  let '(self', h', res) := insert self i (VModule r) h in
  res = Return tt
  /\ nth_error (children self') (Z.to_nat i) = Some (VModule r)
  /\ List.length (children self') = S (List.length (children self))
  /\ h' !! r = Some (set_parent (self_ref self) m).
Proof.
  intros Hi Hm. unfold insert, setattr. cbn [children set_children self_ref].
  destruct (list_insert_at (children self) i (VModule r) Hi) as [Hn Hl].
  repeat split; try assumption.
  unfold heap, ref in *. rewrite lookup_alter_eq, Hm. reflexivity.
Qed.
End RigFacts.

(** C6. For every rig that reports [is_built()] true, [Rig.build] logs a
    warning and returns [False]: the rig, the modules and the scene are as
    they were, no build step runs, and nothing is raised. *)
Theorem rig_build_already_built
        (build_steps :
           Rig.Rig -> Rig.heap -> Host.world ->
           Rig.Rig * Rig.heap * Host.world * outcome Rig.value)
        (self : Rig.Rig) (h : Rig.heap) (w : Host.world) :
  Rig.is_built self h (Host.w_scene w) = Return true ->
  let msg :=
    ("Can't build <rig " ++ Rig.name self
       ++ "/> because it's already built!")%string in
  let '(self', h', w', res) := Rig.build build_steps self h w in
  self' = self /\ h' = h
  /\ Host.w_scene w' = Host.w_scene w
  /\ Host.w_log w' = Host.w_log w ++ [msg]
  /\ res = Return (Rig.VBool false)
  /\ raises res = false
  /\ (forall v, res = Return v -> Rig.truthy v = false).
Proof.
  intros Hb msg. unfold Rig.build. rewrite Hb.
  repeat split.
  - cbn. unfold msg. rewrite build_warning_message. reflexivity.
  - intros v Hv. injection Hv as <-. reflexivity.
Qed.

(** A rig whose only child has its node in the scene; the build steps, were
    they run, would create a node. *)
Lemma rig_build_already_built_witness :
  let sc := Host.mkScene {[ 3%nat := Host.mkInfo "transform" "arm_rig" ]} 4 in
  let w := Host.mkWorld sc [] in
  let h : Rig.heap := {[ 1%nat := Rig.mkModule "arm" (Some 3%nat) None None ]} in
  let rig := Rig.mkRig 0 "bob" [Rig.VModule 1] in
  let build_steps (r : Rig.Rig) (h : Rig.heap) (w : Host.world) :=
    (r, h,
     Host.mkWorld (fst (Host.createNode "joint" "root" (Host.w_scene w)))
                  (Host.w_log w),
     Return (Rig.VBool true)) in
  Rig.build build_steps rig h w =
  (rig, h,
   Host.mkWorld sc ["Can't build <rig bob/> because it's already built!"],
   Return (Rig.VBool false)).
Proof.
  intros sc w h rig build_steps.
  pose proof (rig_build_already_built build_steps rig h w eq_refl) as H.
  cbv zeta in H.
  destruct (Rig.build build_steps rig h w) as [[[r' h'] w'] res].
  destruct H as (-> & -> & Hs & Hl & -> & _).
  destruct w' as [sc' log']. cbn in Hs, Hl. subst. reflexivity.
Defined.

(** When no child is built the guard is passed and the build steps run. *)
Lemma rig_build_not_built
      (build_steps :
         Rig.Rig -> Rig.heap -> Host.world ->
         Rig.Rig * Rig.heap * Host.world * outcome Rig.value)
      (self : Rig.Rig) (h : Rig.heap) (w : Host.world) :
  Rig.is_built self h (Host.w_scene w) = Return false ->
  Rig.build build_steps self h w = build_steps self h w.
Proof. intros Hb. unfold Rig.build. rewrite Hb. reflexivity. Qed.

(** C9, at a rig of two modules: [children[1]] is the second module, and
    [rig[1]] is [None]; [__getitem__] reads the item and does not return it. *)
Theorem rig_getitem_returns_none :
  let rig := Rig.mkRig 0 "untitled" [Rig.VModule 7; Rig.VModule 8] in
  getitem (Rig.children rig) 1 = Return (Rig.VModule 8)
  /\ Rig.__getitem__ rig 1 = Return Rig.VNone
  /\ Rig.__len__ rig = Return (Rig.VInt 2).
Proof. cbv zeta. repeat split. Qed.

(** ** More on the soft-IK node *)

Section SoftIkMore.
Import SoftIkNode.
Local Open Scope R_scope.

(** Below the control's distance: [1 - e^-d <= d]. *)
Lemma soft_target_le (D L r : R) :
  0 < spec_softDist L r -> 0 < spec_delta D L r ->
  spec_softTargetDist D L r < D /\ spec_softTargetDist D L r < L.
Proof.
  unfold spec_softTargetDist, spec_delta, spec_safeDist, spec_softDist.
  intros Hs. destruct (Req_dec_T (L * r) 0) as [Hz|Hz]; [lra|]. intros Hd.
  set (d := (D - (L - L * r)) / (L * r)) in *.
  assert (HD : D = L * r * d + (L - L * r)).
  { unfold d. field. split; intros E; apply Hz; rewrite E; ring. }
  pose proof (exp_ineq1 (- d)) as He.
  pose proof (exp_pos (- d)) as Hp.
  assert (He' : 1 + - d < exp (- d)) by (apply He; lra).
  assert (H1 : 0 < L * r * (exp (- d) - (1 - d)))
    by (apply Rmult_lt_0_compat; lra).
  assert (H2 : 0 < L * r * exp (- d)) by (apply Rmult_lt_0_compat; lra).
  split; nra.
Qed.

Lemma build_outStretch (i : inputs) :
  let D := distanceBetween (inMatrixS i) (inMatrixE i) in
  let L := inChainLength i in
  let r := inRatio i in
  outStretch (build i) =
  1 * (1 - inStretch i)
  + (if Rlt_dec (spec_safeDist L r) D
     then D / spec_softTargetDist D L r else 1) * inStretch i.
Proof.
  cbv zeta. unfold build, spec_softTargetDist, spec_delta, spec_safeDist,
    spec_softDist.
  cbn [outStretch]. unfold Maya.blendTwoAttr, Maya.condition, Maya.condition_test.
  cbn [s_eqb s_ltb s_add s_sub s_mul s_lit R_Scalar]. rewrite Q2R_1.
  unfold R_eqb, R_ltb. rewrite pow_e.
  destruct (Rlt_dec (inChainLength i - inChainLength i * inRatio i)
                    (distanceBetween (inMatrixS i) (inMatrixE i))); [|reflexivity].
  destruct (Req_dec_T (inChainLength i * inRatio i) 0).
  - replace (0 * -1) with (- 0) by ring. reflexivity.
  - match goal with
    | |- context [exp (?d * -1)] => replace (d * -1) with (- d) by ring
    end. reflexivity.
Qed.
End SoftIkMore.

(** X1. With a soft region ([L*r > 0]), a control at a positive distance [D]
    and a stretch blend [s] in [0, 1], the distance given to the IK effector,
    [outRatio * D], never exceeds the distance of the control; it is that
    distance when [s = 1]; and when [s = 0] it stays strictly below the
    length of the chain as soon as the control is past the safe distance. *)
Theorem softik_effector_distance (i : SoftIkNode.inputs) :
  let D := SoftIkNode.distanceBetween (SoftIkNode.inMatrixS i)
                                      (SoftIkNode.inMatrixE i) in
  let L := SoftIkNode.inChainLength i in
  let r := SoftIkNode.inRatio i in
  let s := SoftIkNode.inStretch i in
  let o := SoftIkNode.outRatio (SoftIkNode.build i) in
  (0 < L * r)%R -> (0 < D)%R -> (0 <= s <= 1)%R ->
  (o * D <= D)%R
  /\ (s = 1%R -> o = 1%R)
  /\ (s = 0%R -> (L - L * r < D)%R -> (o * D < L)%R /\ (o < 1)%R).
Proof.
  intros D L r s o Hsoft HD Hs.
  assert (Eo : (o * D =
                SoftIkNode.spec_effective D L r * (1 - s) + D * s)%R).
  { unfold o. rewrite build_outRatio_spec. fold D L r s.
    unfold SoftIkNode.spec_outRatio, SoftIkNode.spec_blended. field. lra. }
  assert (Heff : (SoftIkNode.spec_effective D L r <= D)%R).
  { unfold SoftIkNode.spec_effective.
    destruct (Rlt_dec 0 (SoftIkNode.spec_delta D L r)) as [Hd|Hd]; [|lra].
    apply Rlt_le. apply (soft_target_le D L r); assumption. }
  split; [rewrite Eo; nra|]. split.
  - intros E1. apply (Rmult_eq_reg_r D); [|lra]. rewrite Eo, E1. ring.
  - intros E0 Hpast.
    assert (Hd : (0 < SoftIkNode.spec_delta D L r)%R).
    { unfold SoftIkNode.spec_delta, SoftIkNode.spec_safeDist,
        SoftIkNode.spec_softDist.
      destruct (Req_dec_T (L * r) 0); [lra|].
      apply Rdiv_lt_0_compat; lra. }
    destruct (soft_target_le D L r Hsoft Hd) as [HtD HtL].
    assert (Ee : SoftIkNode.spec_effective D L r =
                 SoftIkNode.spec_softTargetDist D L r).
    { unfold SoftIkNode.spec_effective.
      destruct (Rlt_dec 0 (SoftIkNode.spec_delta D L r)); [reflexivity|lra]. }
    assert (EoD : (o * D = SoftIkNode.spec_softTargetDist D L r)%R).
    { rewrite Eo, E0, Ee. ring. }
    split; [lra|]. apply (Rmult_lt_reg_r D); lra.
Qed.

(** A chain of length 10 with ratio 0.1, the control at 9.5 on the X axis. *)
Lemma softik_effector_distance_witness :
  let i := SoftIkNode.example_inputs (SoftIkNode.mkMatrix 0 0 0)
                                     (SoftIkNode.mkMatrix (19 / 2) 0 0) in
  (SoftIkNode.outRatio (SoftIkNode.build i) * (19 / 2) < 10)%R.
Proof.
  intros i.
  pose proof (softik_effector_distance i) as H. cbv zeta in H.
  assert (ED : SoftIkNode.distanceBetween (SoftIkNode.inMatrixS i)
                 (SoftIkNode.inMatrixE i) = (19 / 2)%R).
  { apply distance_along_x. lra. }
  rewrite ED in H. cbn [i SoftIkNode.example_inputs SoftIkNode.inChainLength
    SoftIkNode.inRatio SoftIkNode.inStretch] in H.
  destruct H as (_ & _ & H0); [lra|lra|lra|].
  apply H0; [reflexivity|lra].
Defined.

(** X2. Stretch: below the safe distance the joints keep their length
    ([outStretch = 1]) whatever the blend; with the blend at 1, a soft region
    and a control past the safe distance, the joints are scaled by
    [D / softTargetDist], a factor above 1 that makes the softened chain
    reach the control exactly. *)
Theorem softik_stretch_factor (i : SoftIkNode.inputs) :
  let D := SoftIkNode.distanceBetween (SoftIkNode.inMatrixS i)
                                      (SoftIkNode.inMatrixE i) in
  let L := SoftIkNode.inChainLength i in
  let r := SoftIkNode.inRatio i in
  let k := SoftIkNode.outStretch (SoftIkNode.build i) in
  ((D <= L - L * r)%R -> k = 1%R)
  /\ (SoftIkNode.inStretch i = 0%R -> k = 1%R)
  /\ (SoftIkNode.inStretch i = 1%R -> (0 < L * r)%R -> (0 <= L - L * r < D)%R ->
      (1 < k)%R /\ (k * SoftIkNode.spec_softTargetDist D L r = D)%R).
Proof.
  intros D L r k.
  pose proof (build_outStretch i) as Ek. cbv zeta in Ek. fold D L r k in Ek.
  unfold SoftIkNode.spec_safeDist, SoftIkNode.spec_softDist in Ek.
  split; [|split].
  - intros Hle. rewrite Ek. destruct (Rlt_dec (L - L * r) D); [lra|ring].
  - intros E0. rewrite Ek, E0. ring.
  - intros E1 Hsoft [Hsafe Hpast].
    assert (Hd : (0 < SoftIkNode.spec_delta D L r)%R).
    { unfold SoftIkNode.spec_delta, SoftIkNode.spec_safeDist,
        SoftIkNode.spec_softDist.
      destruct (Req_dec_T (L * r) 0); [lra|].
      apply Rdiv_lt_0_compat; lra. }
    destruct (soft_target_le D L r Hsoft Hd) as [HtD HtL].
    assert (Hpos : (0 < SoftIkNode.spec_softTargetDist D L r)%R).
    { unfold SoftIkNode.spec_softTargetDist, SoftIkNode.spec_safeDist,
        SoftIkNode.spec_softDist.
      pose proof (exp_pos (- SoftIkNode.spec_delta D L r)) as Hp.
      pose proof (exp_ineq1 (- SoftIkNode.spec_delta D L r)) as He.
      assert (exp (- SoftIkNode.spec_delta D L r) < 1)%R.
      { rewrite <- exp_0. apply exp_increasing. lra. }
      nra. }
    assert (Ekk : (k = D / SoftIkNode.spec_softTargetDist D L r)%R).
    { rewrite Ek, E1. destruct (Rlt_dec (L - L * r) D); [|lra]. ring. }
    split.
    + rewrite Ekk. apply (Rmult_lt_reg_r (SoftIkNode.spec_softTargetDist D L r));
        [exact Hpos|]. unfold Rdiv. rewrite Rmult_assoc, Rinv_l; lra.
    + rewrite Ekk. field. lra.
Qed.

(** Full stretch on the chain of the example, the control at 9.5. *)
Lemma softik_stretch_factor_witness :
  let i := {| SoftIkNode.inMatrixS := SoftIkNode.mkMatrix 0 0 0;
              SoftIkNode.inMatrixE := SoftIkNode.mkMatrix (19 / 2) 0 0;
              SoftIkNode.inRatio := 1 / 10; SoftIkNode.inScale := 1;
              SoftIkNode.inStretch := 1; SoftIkNode.inChainLength := 10 |} in
  (1 < SoftIkNode.outStretch (SoftIkNode.build i))%R.
Proof.
  intros i.
  pose proof (softik_stretch_factor i) as H. cbv zeta in H.
  assert (ED : SoftIkNode.distanceBetween (SoftIkNode.inMatrixS i)
                 (SoftIkNode.inMatrixE i) = (19 / 2)%R).
  { apply distance_along_x. lra. }
  rewrite ED in H. cbn [i SoftIkNode.inChainLength
    SoftIkNode.inRatio SoftIkNode.inStretch] in H.
  destruct H as (_ & _ & H1).
  apply H1; [reflexivity|lra|lra].
Defined.

(** ** The maintenance script *)

Section FixFacts.
Import FixMissingRigAttr.

Lemma fix_net_with_rig (r : network) (net : network) :
  exists out,
    fix_net (Some r) net = (repair (net_id r) net, out, Return tt)
    /\ (repaired net = true -> out = []).
Proof.
  unfold fix_net, repair, repaired.
  destruct net as [i n ir im ha ri]. cbn.
  destruct im; cbn; [|exists []; split; reflexivity].
  destruct ha; cbn; destruct ri as [s|]; cbn;
    eexists; (split; [reflexivity|]); intros H;
    try reflexivity; try discriminate.
Qed.

Lemma fix_nets_with_rig (r : network) (l : list network) :
  exists out,
    fix_nets (Some r) l = (List.map (repair (net_id r)) l, out, Return tt)
    /\ (forallb repaired l = true -> out = []).
Proof.
  induction l as [|net rest (out' & IH & IHe)]; cbn [fix_nets List.map forallb].
  - exists []. split; reflexivity.
  - destruct (fix_net_with_rig r net) as (out & E & Ee). rewrite E, IH.
    exists (out ++ out'). split; [reflexivity|].
    intros H. apply andb_true_iff in H as [H1 H2].
    rewrite (Ee H1), (IHe H2). reflexivity.
Qed.

Lemma repair_repaired (r : Host.node) (net : network) :
  repaired (repair r net) = true.
Proof.
  unfold repair, repaired. destruct (is_module net) eqn:E; cbn.
  - destruct (rig_input net); reflexivity.
  - rewrite E. reflexivity.
Qed.

Lemma repair_idempotent (r r' : Host.node) (net : network) :
  repair r' (repair r net) = repair r net.
Proof.
  unfold repair. destruct (is_module net) eqn:E; cbn.
  - destruct (rig_input net); reflexivity.
  - rewrite E. reflexivity.
Qed.

Lemma find_rig_repair (r : Host.node) (l : list network) :
  option_map net_id (find_net_rig (List.map (repair r) l)) =
  option_map net_id (find_net_rig l).
Proof.
  unfold find_net_rig. induction l as [|net rest IH]; cbn; [reflexivity|].
  assert (E : is_rig (repair r net) = is_rig net).
  { unfold repair. destruct (is_module net); reflexivity. }
  rewrite E. destruct (is_rig net); [|exact IH].
  cbn. unfold repair. destruct (is_module net); reflexivity.
Qed.

(** Without a rig network the loop runs to its end exactly when nothing is
    left to connect. *)
Lemma fix_nets_without_rig (l : list network) :
  (forallb settled l
   = true ->
   exists out, fix_nets None l =
     (List.map (fun n => if is_module n then addAttr_rig n else n) l, out,
      Return tt))
  /\ (forallb settled l
      = false ->
      exists l' out, fix_nets None l = (l', out, Raise AttributeError)
                     /\ List.length l' = List.length l
                     /\ List.map rig_input l' = List.map rig_input l).
Proof.
  induction l as [|net rest [IHt IHf]]; cbn [forallb fix_nets List.map].
  - split; [intros _; exists []; reflexivity|discriminate].
  - destruct net as [i n ir im ha ri]. unfold fix_net, settled. cbn.
    destruct im; cbn.
    + destruct ri as [s|]; cbn.
      * split; intros H.
        -- destruct (IHt H) as (out & E). rewrite E.
           destruct ha; cbn; eexists; reflexivity.
        -- destruct (IHf H) as (l' & out & E & El & Er). rewrite E.
           destruct ha; cbn; do 2 eexists;
             (split; [reflexivity|]); cbn; split; congruence.
      * split; [discriminate|]. intros _.
        destruct ha; cbn; do 2 eexists; (split; [reflexivity|]);
          split; reflexivity.
    + split; intros H.
      * destruct (IHt H) as (out & E). rewrite E. eexists. reflexivity.
      * destruct (IHf H) as (l' & out & E & El & Er). rewrite E.
        do 2 eexists. (split; [reflexivity|]). cbn. split; congruence.
Qed.

Lemma run_with_rig (l : list network) (r : network) :
  find_net_rig l = Some r ->
  exists out,
    run l = (mkState (List.map (repair (net_id r)) l) out, Return tt).
Proof.
  intros Hr. unfold run. rewrite Hr.
  destruct (fix_nets_with_rig r l) as (out & E & _). rewrite E.
  exists out. reflexivity.
Qed.
End FixFacts.

(** X3. When the scene holds a rig network, the script runs to its end and
    leaves every network repaired: a module network has the attribute [rig],
    connected to the plug it was connected to, or else to the first rig
    network of the list; a network that is not a module is as it was. *)
Theorem fix_missing_rig_attr_repairs (l : list FixMissingRigAttr.network)
        (r : FixMissingRigAttr.network) :
  FixMissingRigAttr.find_net_rig l = Some r ->
  snd (FixMissingRigAttr.run l) = Return tt
  /\ FixMissingRigAttr.nets (fst (FixMissingRigAttr.run l)) =
       List.map (FixMissingRigAttr.repair (FixMissingRigAttr.net_id r)) l
  /\ forallb FixMissingRigAttr.repaired
             (FixMissingRigAttr.nets (fst (FixMissingRigAttr.run l))) = true
  /\ (forall net,
        In net l -> FixMissingRigAttr.is_module net = false ->
        In net (FixMissingRigAttr.nets (fst (FixMissingRigAttr.run l)))).
Proof.
  intros Hr. destruct (run_with_rig l r Hr) as (out & E). rewrite E. cbn.
  split; [reflexivity|]. split; [reflexivity|]. split.
  - apply forallb_forall. intros x Hx. apply in_map_iff in Hx as (n & <- & _).
    apply repair_repaired.
  - intros net Hin Hm. apply in_map_iff. exists net. split; [|exact Hin].
    unfold FixMissingRigAttr.repair. rewrite Hm. reflexivity.
Qed.

(** A rig, a module without the attribute and a module connected to another
    rig. *)
Lemma fix_missing_rig_attr_repairs_witness :
  let rig := FixMissingRigAttr.mkNet 1 "net_rig" true false false None in
  let arm := FixMissingRigAttr.mkNet 2 "net_arm" false true false None in
  let leg := FixMissingRigAttr.mkNet 3 "net_leg" false true true (Some 9%nat) in
  FixMissingRigAttr.nets (fst (FixMissingRigAttr.run [arm; rig; leg])) =
  [FixMissingRigAttr.mkNet 2 "net_arm" false true true (Some 1%nat); rig; leg].
Proof.
  intros rig arm leg.
  apply (proj1 (proj2 (fix_missing_rig_attr_repairs [arm; rig; leg] rig eq_refl))).
Defined.

(** X4. The script is idempotent: run on the scene it has repaired, it
    changes nothing and prints nothing. *)
Theorem fix_missing_rig_attr_idempotent (l : list FixMissingRigAttr.network)
        (r : FixMissingRigAttr.network) :
  FixMissingRigAttr.find_net_rig l = Some r ->
  FixMissingRigAttr.run
    (FixMissingRigAttr.nets (fst (FixMissingRigAttr.run l))) =
  (FixMissingRigAttr.mkState
     (FixMissingRigAttr.nets (fst (FixMissingRigAttr.run l))) [],
   Return tt).
Proof.
  intros Hr.
  destruct (run_with_rig l r Hr) as (out0 & E).
  rewrite E. cbn [fst FixMissingRigAttr.nets]. unfold FixMissingRigAttr.run.
  pose proof (find_rig_repair (FixMissingRigAttr.net_id r) l) as Hf.
  rewrite Hr in Hf. cbn in Hf.
  destruct (FixMissingRigAttr.find_net_rig
              (List.map (FixMissingRigAttr.repair (FixMissingRigAttr.net_id r)) l))
    as [r'|] eqn:Hr'; [|discriminate Hf].
  destruct (fix_nets_with_rig r' (List.map (FixMissingRigAttr.repair
                                              (FixMissingRigAttr.net_id r)) l))
    as (out & E' & Hout).
  rewrite E'. rewrite Hout.
  - rewrite List.map_map.
    f_equal. f_equal. apply List.map_ext. intros net. apply repair_idempotent.
  - apply forallb_forall. intros x Hx. apply in_map_iff in Hx as (n & <- & _).
    apply repair_repaired.
Qed.

(** X5. When the scene holds no rig network, the script connects nothing. It
    runs to its end exactly when no module network is left to connect;
    otherwise it stops on [AttributeError], at the first module network whose
    attribute [rig] is not a destination. *)
Theorem fix_missing_rig_attr_without_rig (l : list FixMissingRigAttr.network) :
  FixMissingRigAttr.find_net_rig l = None ->
  (snd (FixMissingRigAttr.run l) = Return tt
   <-> forallb FixMissingRigAttr.settled l = true)
  /\ (snd (FixMissingRigAttr.run l) = Raise AttributeError
      <-> forallb FixMissingRigAttr.settled l = false)
  /\ List.map FixMissingRigAttr.rig_input
       (FixMissingRigAttr.nets (fst (FixMissingRigAttr.run l))) =
     List.map FixMissingRigAttr.rig_input l.
Proof.
  intros Hr. unfold FixMissingRigAttr.run. rewrite Hr.
  destruct (fix_nets_without_rig l) as [Ht Hf].
  destruct (forallb FixMissingRigAttr.settled l) eqn:Hs.
  - destruct (Ht eq_refl) as (out & E). rewrite E. cbn.
    split; [tauto|]. split; [split; discriminate|].
    rewrite List.map_map. apply List.map_ext. intros n.
    destruct (FixMissingRigAttr.is_module n); reflexivity.
  - destruct (Hf eq_refl) as (l' & out & E & _ & Er). rewrite E. cbn.
    split; [split; discriminate|]. split; [tauto|exact Er].
Qed.

(** Two module networks and no rig: the first has the attribute added, the
    script stops there. *)
Lemma fix_missing_rig_attr_without_rig_witness :
  let arm := FixMissingRigAttr.mkNet 2 "net_arm" false true false None in
  let leg := FixMissingRigAttr.mkNet 3 "net_leg" false true false None in
  snd (FixMissingRigAttr.run [arm; leg]) = Raise AttributeError.
Proof.
  intros arm leg.
  apply (proj1 (proj2 (fix_missing_rig_attr_without_rig [arm; leg] eq_refl))).
  reflexivity.
Defined.

Example fix_missing_rig_attr_without_rig_state :
  let arm := FixMissingRigAttr.mkNet 2 "net_arm" false true false None in
  let leg := FixMissingRigAttr.mkNet 3 "net_leg" false true false None in
  fst (FixMissingRigAttr.run [arm; leg]) =
  FixMissingRigAttr.mkState
    [FixMissingRigAttr.mkNet 2 "net_arm" false true true None; leg]
    ["Add attribute 'rig' on net_arm"].
Proof. reflexivity. Qed.

(** The scene of three networks, repaired, then run again. *)
Lemma fix_missing_rig_attr_idempotent_witness :
  let rig := FixMissingRigAttr.mkNet 1 "net_rig" true false false None in
  let arm := FixMissingRigAttr.mkNet 2 "net_arm" false true false None in
  let leg := FixMissingRigAttr.mkNet 3 "net_leg" false true true (Some 9%nat) in
  let repaired := FixMissingRigAttr.nets (fst (FixMissingRigAttr.run [arm; rig; leg])) in
  FixMissingRigAttr.run repaired = (FixMissingRigAttr.mkState repaired [], Return tt).
Proof.
  intros rig arm leg repaired.
  exact (fix_missing_rig_attr_idempotent [arm; rig; leg] rig eq_refl).
Defined.

(** ** More on the rig root *)

Section RigSeqFacts.
Import Rig RigSeq.

Lemma any_built_skip (h : heap) (sc : Host.scene) (pre post : list value) :
  Forall (unbuilt h sc) pre ->
  any_built h sc (pre ++ post) = any_built h sc post.
Proof.
  induction 1 as [|v pre (r & m & -> & Hm & Hb) _ IH]; [reflexivity|].
  cbn. rewrite Hm. cbn. rewrite Hb. exact IH.
Qed.

Lemma any_built_all_unbuilt (h : heap) (sc : Host.scene) (l : list value) :
  Forall (unbuilt h sc) l -> any_built h sc l = Return false.
Proof.
  intros H. rewrite <- (List.app_nil_r l). rewrite any_built_skip by exact H.
  reflexivity.
Qed.



End RigSeqFacts.

(** X6. [is_built] visits the children in order and the first child that is
    not an unbuilt module decides: a built module gives [True] whatever
    follows it, a [None] raises [AttributeError] whatever follows it; when
    every child is an unbuilt module the answer is [False]. *)
Theorem rig_is_built_first_decides (self : Rig.Rig) (h : Rig.heap)
        (sc : Host.scene) (pre post : list Rig.value) (v : Rig.value) :
  Rig.children self = pre ++ v :: post ->
  Forall (RigSeq.unbuilt h sc) pre ->
  (RigSeq.built h sc v -> Rig.is_built self h sc = Return true)
  /\ (v = Rig.VNone -> Rig.is_built self h sc = Raise AttributeError)
  /\ (RigSeq.unbuilt h sc v -> Forall (RigSeq.unbuilt h sc) post ->
      Rig.is_built self h sc = Return false).
Proof.
  intros Hc Hpre. unfold Rig.is_built. rewrite Hc, any_built_skip by exact Hpre.
  split; [|split].
  - intros (r & m & -> & Hm & Hb). cbn. rewrite Hm. cbn. rewrite Hb. reflexivity.
  - intros ->. reflexivity.
  - intros Hv Hpost. apply any_built_all_unbuilt. constructor; assumption.
Qed.

(** An unbuilt arm, then a built leg, then [None]; and the same with [None]
    before the leg. *)
Lemma rig_is_built_first_decides_witness :
  let sc := Host.mkScene {[ 3%nat := Host.mkInfo "transform" "leg_rig" ]} 4 in
  let h : Rig.heap :=
    {[ 1%nat := Rig.mkModule "arm" None None None;
       2%nat := Rig.mkModule "leg" (Some 3%nat) None None ]} in
  Rig.is_built (Rig.mkRig 0 "bob" [Rig.VModule 1; Rig.VModule 2; Rig.VNone]) h sc
    = Return true
  /\ Rig.is_built (Rig.mkRig 0 "bob" [Rig.VModule 1; Rig.VNone; Rig.VModule 2]) h sc
     = Raise AttributeError.
Proof.
  intros sc h.
  assert (Harm : Forall (RigSeq.unbuilt h sc) [Rig.VModule 1]).
  { constructor; [|constructor].
    exists 1%nat, (Rig.mkModule "arm" None None None). repeat split. }
  split.
  - apply (proj1 (rig_is_built_first_decides
                    (Rig.mkRig 0 "bob" [Rig.VModule 1; Rig.VModule 2; Rig.VNone])
                    h sc [Rig.VModule 1] [Rig.VNone] (Rig.VModule 2)
                    eq_refl Harm)).
    exists 2%nat, (Rig.mkModule "leg" (Some 3%nat) None None). repeat split.
  - apply (proj1 (proj2 (rig_is_built_first_decides
                    (Rig.mkRig 0 "bob" [Rig.VModule 1; Rig.VNone; Rig.VModule 2])
                    h sc [Rig.VModule 1] [Rig.VModule 2] Rig.VNone
                    eq_refl Harm))).
    reflexivity.
Defined.



Section RigSeqFacts2.
Import Rig RigSeq.

Lemma filter_truthy_insert_none (l : list value) (i : Z) :
  List.filter truthy (list_insert l i VNone) = List.filter truthy l.
Proof.
  unfold list_insert.
  rewrite List.filter_app. cbn [List.filter truthy].
  rewrite <- List.filter_app, firstn_skipn. reflexivity.
Qed.

Lemma list_insert_length {A : Type} (l : list A) (i : Z) (x : A) :
  List.length (list_insert l i x) = S (List.length l).
Proof.
  unfold list_insert. rewrite List.length_app. cbn [List.length].
  rewrite Nat.add_succ_r, <- List.length_app, firstn_skipn. reflexivity.
Qed.

Lemma del_insert_raw {A : Type} (a b : list A) (x : A) :
  firstn (List.length a) (a ++ x :: b)
    ++ skipn (S (List.length a)) (a ++ x :: b) = a ++ b.
Proof.
  induction a as [|y a IH]; [reflexivity|].
  cbn [List.length List.app firstn skipn]. f_equal. exact IH.
Qed.

Lemma list_delitem_insert {A : Type} (l : list A) (i : Z) (x : A) :
  (0 <= i <= Z.of_nat (List.length l))%Z ->
  list_delitem (list_insert l i x) i = Return l.
Proof.
  intros [H0 Hl]. unfold list_delitem. rewrite list_insert_length.
  unfold list_insert, norm_index.
  destruct (i <? 0)%Z eqn:Hneg; [apply Z.ltb_lt in Hneg; lia|]. rewrite Hneg.
  rewrite Z.max_r by lia.
  destruct (Nat.ltb_spec (Z.to_nat i) (S (List.length l))) as [_|Hge]; [|lia].
  assert (Hlen : List.length (firstn (Z.to_nat i) l) = Z.to_nat i).
  { apply firstn_length_le. lia. }
  f_equal.
  pose proof (del_insert_raw (firstn (Z.to_nat i) l) (skipn (Z.to_nat i) l) x)
    as E.
  rewrite Hlen in E. rewrite E. apply firstn_skipn.
Qed.

Lemma list_delitem_out_of_range {A : Type} (l : list A) (i : Z) :
  (i < - Z.of_nat (List.length l) \/ Z.of_nat (List.length l) <= i)%Z ->
  list_delitem l i = Raise IndexError.
Proof.
  intros H. unfold list_delitem, norm_index.
  destruct (i <? 0)%Z eqn:Hneg.
  - apply Z.ltb_lt in Hneg.
    destruct (i + Z.of_nat (List.length l) <? 0)%Z eqn:Hj; [reflexivity|].
    apply Z.ltb_ge in Hj. lia.
  - rewrite Hneg. apply Z.ltb_ge in Hneg.
    destruct (Nat.ltb_spec (Z.to_nat i) (List.length l)); [lia|reflexivity].
Qed.
End RigSeqFacts2.

(** X8. [insert(i, None)] is not atomic: it raises [AttributeError] on
    [value._parent = self] after the list has taken the [None], so the rig is
    left with one more child; [add_module(None)] raises before it appends and
    leaves the rig as it was. [__callbackNetworkPostBuild__] gives the same
    children after the failed insert as before it. *)
Theorem rig_insert_none_not_atomic (self : Rig.Rig) (index : Z) (h : Rig.heap) :
  let '(self', h', res) := Rig.insert self index Rig.VNone h in
  res = Raise AttributeError
  /\ h' = h
  /\ List.length (Rig.children self') = S (List.length (Rig.children self))
  /\ In Rig.VNone (Rig.children self')
  /\ Rig.add_module self Rig.VNone h = (self, h, Raise AttributeError)
  /\ Rig.children (RigSeq.__callbackNetworkPostBuild__ self') =
       Rig.children (RigSeq.__callbackNetworkPostBuild__ self).
Proof.
  unfold Rig.insert, Rig.setattr, Rig.add_module. cbn.
  repeat split.
  - apply list_insert_length.
  - unfold list_insert. apply in_or_app. right. left. reflexivity.
  - apply filter_truthy_insert_none.
Qed.

(** X9. [del rig[i]] undoes [insert(i, m)] on the children, for every index
    from 0 to [len(rig)], while the module keeps the [_parent] that [insert]
    wrote; and [del rig[i]] outside [-len, len) raises [IndexError] and
    leaves the rig as it was. *)
Theorem rig_insert_delitem (self : Rig.Rig) (i : Z) (r : Rig.ref)
        (m : Rig.Module) (h : Rig.heap) :
  (0 <= i <= Z.of_nat (List.length (Rig.children self)))%Z ->
  h !! r = Some m ->
  let '(self1, h1, res1) := Rig.insert self i (Rig.VModule r) h in
  res1 = Return tt
  /\ RigSeq.__delitem__ self1 i = (self, Return tt)
  /\ h1 !! r = Some (Rig.set_parent (Rig.self_ref self) m)
  /\ (forall j,
        (j < - Z.of_nat (List.length (Rig.children self))
         \/ Z.of_nat (List.length (Rig.children self)) <= j)%Z ->
        RigSeq.__delitem__ self j = (self, Raise IndexError)).
Proof.
  intros Hi Hm. unfold Rig.insert, Rig.setattr. cbn.
  split; [reflexivity|]. split; [|split].
  - unfold RigSeq.__delitem__. cbn [Rig.children Rig.set_children].
    rewrite list_delitem_insert by exact Hi.
    destruct self; reflexivity.
  - unfold Rig.heap, Rig.ref in *. rewrite lookup_alter_eq, Hm. reflexivity.
  - intros j Hj. unfold RigSeq.__delitem__.
    rewrite list_delitem_out_of_range by exact Hj. reflexivity.
Qed.

(** A module inserted in the middle of a rig of two, and deleted. *)
Lemma rig_insert_delitem_witness :
  let h : Rig.heap := {[ 5%nat := Rig.mkModule "arm" None None None ]} in
  let rig := Rig.mkRig 0 "bob" [Rig.VModule 1; Rig.VModule 2] in
  RigSeq.__delitem__ (fst (fst (Rig.insert rig 1 (Rig.VModule 5) h))) 1 =
  (rig, Return tt).
Proof.
  intros h rig.
  pose proof (rig_insert_delitem rig 1 5%nat (Rig.mkModule "arm" None None None) h)
    as H.
  destruct (Rig.insert rig 1 (Rig.VModule 5) h) as [[self1 h1] res1].
  apply H; [cbn; lia|reflexivity].
Defined.

(** ** Scrubbing the dead handles of the rig *)

Section CleanFacts.
Import CleanPyNodes.
Variable is_valid_PyNode : pyval -> bool.

Abbreviation fnCanDelete := (fnCanDelete is_valid_PyNode).
Abbreviation keep := (keep is_valid_PyNode).
Abbreviation clean_value := (clean_value is_valid_PyNode).
Abbreviation clean := (clean is_valid_PyNode).
Abbreviation indexable := (indexable is_valid_PyNode).

Lemma filter_keep_forallb (l : list pyval) :
  forallb keep (List.filter keep l) = true.
Proof.
  apply forallb_forall. intros x Hx. apply filter_In in Hx. tauto.
Qed.

Lemma forallb_keep (l : list pyval) :
  forallb keep l = negb (existsb fnCanDelete l).
Proof.
  induction l as [|x l IH]; cbn; [reflexivity|].
  rewrite IH. unfold CleanPyNodes.keep. rewrite negb_orb. reflexivity.
Qed.

Lemma filter_keep_id (l : list pyval) :
  forallb keep l = true -> List.filter keep l = l.
Proof.
  induction l as [|x l IH]; cbn; [reflexivity|].
  intros H. apply andb_true_iff in H as [Hx Hl]. rewrite Hx, IH by exact Hl.
  reflexivity.
Qed.

(** A turn on an indexable value does not raise and leaves a clean value. *)
Lemma clean_value_indexable (val : pyval) :
  indexable val = true ->
  exists val', clean_value val = inl val'
               /\ clean val' = true
               /\ (clean val = true -> val' = val)
               /\ (val = PList [] -> val' = PNone).
Proof.
  intros Hi. unfold CleanPyNodes.clean_value.
  destruct (fnCanDelete val) eqn:Hd.
  { exists PNone. split; [reflexivity|]. split; [reflexivity|]. split.
    - unfold CleanPyNodes.clean. rewrite Hd. discriminate.
    - reflexivity. }
  destruct val as [| s | o | n | n a | l | l | l].
  - exists PNone. repeat split; reflexivity.
  - exists (PStr s). repeat split; try reflexivity. discriminate.
  - exists (PObject o). repeat split; try reflexivity. discriminate.
  - exists (PNode n). repeat split; try reflexivity; [|discriminate].
    unfold CleanPyNodes.clean. rewrite Hd. reflexivity.
  - exists (PAttribute n a). repeat split; try reflexivity; [|discriminate].
    unfold CleanPyNodes.clean. rewrite Hd. reflexivity.
  - destruct (List.filter keep l) as [|x l'] eqn:Hf.
    + exists PNone. repeat split; try reflexivity.
      unfold CleanPyNodes.clean. cbn. intros H.
      apply andb_true_iff in H as [H1 H2].
      rewrite (filter_keep_id l H1) in Hf. subst l. discriminate H2.
    + exists (PList (x :: l')). split; [reflexivity|]. split; [|split].
      * unfold CleanPyNodes.clean. cbn [CleanPyNodes.fnCanDelete negb andb].
        rewrite <- Hf, filter_keep_forallb, Hf. reflexivity.
      * unfold CleanPyNodes.clean. cbn. intros H.
        apply andb_true_iff in H as [H1 _].
        rewrite (filter_keep_id l H1) in Hf. congruence.
      * intros E. injection E as ->. discriminate Hf.
  - cbn in Hi. destruct l as [|x l]; [|discriminate Hi].
    exists PNone. repeat split; try reflexivity; discriminate.
  - cbn in Hi. apply negb_true_iff in Hi. rewrite Hi.
    destruct l as [|x l].
    + exists PNone. repeat split; try reflexivity; discriminate.
    + exists (PTuple (x :: l)). repeat split; try reflexivity; [|discriminate].
      unfold CleanPyNodes.clean. cbn [CleanPyNodes.fnCanDelete negb andb].
      rewrite forallb_keep, Hi. reflexivity.
Qed.



Lemma clean_value_raises (val : pyval) :
  indexable val = false ->
  exists e, clean_value val = inr e
            /\ (forall l, val = PSet l -> e = TypeError)
            /\ (forall l, val = PTuple l -> e = AttributeError).
Proof.
  unfold CleanPyNodes.indexable, CleanPyNodes.clean_value.
  destruct val as [| s | o | n | n a | l | l | l]; try discriminate.
  - destruct l as [|x l]; [discriminate|]. intros _. cbn.
    exists TypeError. repeat split; try reflexivity. discriminate.
  - intros H. apply negb_false_iff in H. cbn. rewrite H.
    exists AttributeError. repeat split; try reflexivity. discriminate.
Qed.
End CleanFacts.



(** X11. A set that has items stops [_clean_invalid_pynodes] on a
    [TypeError] ([val[i]] on a set) and a tuple holding a dead node stops it
    on an [AttributeError] ([val.pop] on a tuple); the attributes visited
    before have been scrubbed, the one that raised and those after it are as
    they were. *)
Theorem clean_invalid_pynodes_raises
        (is_valid_PyNode : CleanPyNodes.pyval -> bool)
        (before after : CleanPyNodes.dict) (key : string)
        (val : CleanPyNodes.pyval) :
  forallb (fun kv => CleanPyNodes.indexable is_valid_PyNode (snd kv)) before
    = true ->
  CleanPyNodes.indexable is_valid_PyNode val = false ->
  exists e,
    CleanPyNodes._clean_invalid_pynodes is_valid_PyNode
      (before ++ (key, val) :: after) =
    (fst (CleanPyNodes._clean_invalid_pynodes is_valid_PyNode before)
       ++ (key, val) :: after, Some e)
    /\ (forall l, val = CleanPyNodes.PSet l -> e = CleanPyNodes.TypeError)
    /\ (forall l, val = CleanPyNodes.PTuple l ->
                  e = CleanPyNodes.AttributeError).
Proof.
  intros Hb Hv.
  destruct (clean_value_raises is_valid_PyNode val Hv) as (e & Ee & Hs & Ht).
  exists e. split; [|split; assumption].
  induction before as [|[k v] rest IH];
    cbn [forallb snd CleanPyNodes._clean_invalid_pynodes List.app fst] in *.
  - rewrite Ee. reflexivity.
  - apply andb_true_iff in Hb as [Hv1 Hr].
    destruct (clean_value_indexable is_valid_PyNode v Hv1) as (v' & E & _).
    rewrite E, (IH Hr).
    destruct (CleanPyNodes._clean_invalid_pynodes is_valid_PyNode rest).
    reflexivity.
Qed.

(** A rig holding a set of nodes. *)
Lemma clean_invalid_pynodes_raises_witness :
  let valid (v : CleanPyNodes.pyval) := true in
  let d := [("children", CleanPyNodes.PList []);
            ("extras", CleanPyNodes.PSet [CleanPyNodes.PNode 3]);
            ("grp_jnts", CleanPyNodes.PNode 7)] in
  CleanPyNodes._clean_invalid_pynodes valid d =
  ([("children", CleanPyNodes.PNone);
    ("extras", CleanPyNodes.PSet [CleanPyNodes.PNode 3]);
    ("grp_jnts", CleanPyNodes.PNode 7)],
   Some CleanPyNodes.TypeError).
Proof.
  intros valid d.
  destruct (clean_invalid_pynodes_raises valid
              [("children", CleanPyNodes.PList [])]
              [("grp_jnts", CleanPyNodes.PNode 7)] "extras"
              (CleanPyNodes.PSet [CleanPyNodes.PNode 3]) eq_refl eq_refl)
    as (e & E & Hs & _).
  rewrite (Hs _ eq_refl) in E. exact E.
Defined.

(** ** More on the shape library *)

Section ShapesMore.
Import libCtrlShapes libCtrlShapesMore.
Local Open Scope Q_scope.

Lemma Q_ltb_spec (a b : Q) : Q_ltb a b = true <-> a < b.
Proof.
  unfold Q_ltb. rewrite Qlt_alt. destruct (a ?= b); split; congruence.
Qed.

Lemma truthy_false (x : Q) : truthy x = false -> x == 0.
Proof.
  unfold truthy. intros H. apply negb_false_iff in H.
  apply Qeq_bool_iff. exact H.
Qed.

Lemma truthy_true (x : Q) : truthy x = true -> ~ x == 0.
Proof.
  unfold truthy. intros H Hx. apply negb_true_iff in H.
  apply Qeq_bool_iff in Hx. congruence.
Qed.

Lemma truthy_opp (x : Q) : truthy (x * - (1)) = truthy x.
Proof.
  destruct (truthy x) eqn:E.
  - apply truthy_true in E. unfold truthy. apply negb_true_iff.
    destruct (Qeq_bool (x * - (1)) 0) eqn:E'; [|reflexivity].
    apply Qeq_bool_iff in E'. exfalso. apply E. lra.
  - apply truthy_false in E. unfold truthy. apply negb_false_iff.
    apply Qeq_bool_iff. lra.
Qed.

Lemma sgn_opp (x : Q) : ~ x == 0 -> sgn (x * - (1)) == - sgn x.
Proof.
  intros Hx. unfold sgn.
  destruct (Q_ltb x 0) eqn:E1, (Q_ltb (x * - (1)) 0) eqn:E2;
    try reflexivity.
  - apply Q_ltb_spec in E1, E2. lra.
  - assert (~ x < 0) by (rewrite <- Q_ltb_spec; congruence).
    assert (~ x * - (1) < 0) by (rewrite <- Q_ltb_spec; congruence).
    exfalso. apply Hx. lra.
Qed.

Ltac trig :=
  try change (cos_deg 0) with 1;
  try change (sin_deg 0) with 0;
  try change (cos_deg 90) with 0;
  try change (sin_deg 90) with 1;
  try change (cos_deg (- (90))) with 0;
  try change (sin_deg (- (90))) with (- (1));
  try change (cos_deg 180) with (- (1));
  try change (sin_deg 180) with 0.

(** The tip of the shaft, whatever the normal. *)
Lemma shaft_tip_axis (size : Q) (length radius : option Q) (normal : point) :
  let h := resolve_length size length - resolve_radius size radius in
  point_eq (shaft_tip (create_shape_needle size length radius normal))
           (scale_point h (needle_axis normal)).
Proof.
  cbv zeta. destruct normal as [[nx ny] nz].
  unfold shaft_tip, placed, create_shape_needle, needle_axis.
  destruct (truthy nx); [|destruct (truthy ny); [|destruct (truthy nz)]].
  - unfold sgn. destruct (Q_ltb nx 0); cbn; trig; repeat split; lra.
  - unfold sgn. destruct (Q_ltb ny 0); cbn; trig; repeat split; lra.
  - unfold sgn. destruct (Q_ltb nz 0); cbn; trig; repeat split; lra.
  - cbn. trig. repeat split; lra.
Qed.

(** The opposite normal selects the opposite axis. *)
Lemma needle_axis_inv (normal : point) :
  nonzero_normal normal = true ->
  point_eq (needle_axis (normal_inv normal))
           (scale_point (- (1)) (needle_axis normal)).
Proof.
  destruct normal as [[nx ny] nz]. unfold nonzero_normal, needle_axis, normal_inv.
  rewrite !truthy_opp.
  destruct (truthy nx) eqn:Ex; [|destruct (truthy ny) eqn:Ey;
                                  [|destruct (truthy nz) eqn:Ez]];
    cbn; try discriminate; intros _.
  - pose proof (sgn_opp nx (truthy_true nx Ex)). repeat split; lra.
  - pose proof (sgn_opp ny (truthy_true ny Ey)). repeat split; lra.
  - pose proof (sgn_opp nz (truthy_true nz Ez)). repeat split; lra.
Qed.

Lemma point_eq_trans (p q r : point) :
  point_eq p q -> point_eq q r -> point_eq p r.
Proof.
  destruct p as [[a b] c], q as [[a' b'] c'], r as [[a'' b''] c'']. cbn.
  intros (H1 & H2 & H3) (H4 & H5 & H6). repeat split; lra.
Qed.

Lemma scale_point_eq (k : Q) (p q : point) :
  point_eq p q -> point_eq (scale_point k p) (scale_point k q).
Proof.
  destruct p as [[a b] c], q as [[a' b'] c']. cbn.
  intros (H1 & H2 & H3). rewrite H1, H2, H3. repeat split; reflexivity.
Qed.

(** The curves of a needle do not depend on the normal. *)
Lemma needle_shapes_normal (size : Q) (length radius : option Q)
      (normal : point) :
  let n := create_shape_needle size length radius normal in
  let n0 := create_shape_needle size length radius (0, 1, 0) in
  shape1 n = shape1 n0 /\ shape2 n = shape2 n0 /\ shape3 n = shape3 n0
  /\ (need_identity n = false -> rotateX n = 0 /\ rotateZ n = 0).
Proof.
  cbv zeta. destruct normal as [[nx ny] nz]. unfold create_shape_needle.
  destruct (truthy nx), (truthy ny), (truthy nz), (Q_ltb nx 0), (Q_ltb ny 0),
    (Q_ltb nz 0); cbn; repeat split; try reflexivity; discriminate.
Qed.

Ltac q_point_in :=
  first [ apply Exists_cons_hd; cbn; repeat split; lra
        | apply Exists_cons_tl; q_point_in ].

Lemma cross_symmetric (c : Q) :
  Forall (fun p => Exists (point_eq (scale_point (- (1)) p))
                          (create_shape_cross c))
         (create_shape_cross c).
Proof.
  unfold create_shape_cross.
  repeat (apply List.Forall_cons; [q_point_in|]). apply List.Forall_nil.
Qed.
End ShapesMore.

(** X12. Whatever the normal, the shaft of the needle ends on the axis the
    normal selects (its first component that is not zero, in the order X, Y,
    Z, with its sign; +Y for a zero normal), at [length - radius] from the
    origin; the rotation is left on the transform only when it is zero; and
    the two needles of [create_shape_double_needle] end at opposite points
    whenever the normal is not zero. *)
Theorem needle_points_along_normal (size : Q) (length radius : option Q)
        (normal : libCtrlShapes.point) :
  let n := libCtrlShapes.create_shape_needle size length radius normal in
  let h := (libCtrlShapes.resolve_length size length
            - libCtrlShapes.resolve_radius size radius)%Q in
  let '(n1, n2) :=
    libCtrlShapesMore.create_shape_double_needle normal size length radius in
  libCtrlShapesMore.point_eq
    (libCtrlShapesMore.shaft_tip n)
    (libCtrlShapesMore.scale_point h (libCtrlShapesMore.needle_axis normal))
  /\ (libCtrlShapes.need_identity n = false ->
      libCtrlShapes.rotateX n = 0%Q /\ libCtrlShapes.rotateZ n = 0%Q)
  /\ (libCtrlShapesMore.nonzero_normal normal = true ->
      libCtrlShapesMore.point_eq
        (libCtrlShapesMore.shaft_tip n2)
        (libCtrlShapesMore.scale_point (- (1))
           (libCtrlShapesMore.shaft_tip n1))).
Proof.
  cbv zeta. unfold libCtrlShapesMore.create_shape_double_needle.
  pose proof (shaft_tip_axis size length radius normal) as H1.
  pose proof (shaft_tip_axis size length radius
                (libCtrlShapesMore.normal_inv normal)) as H2.
  cbv zeta in H1, H2.
  split; [exact H1|]. split.
  - apply (needle_shapes_normal size length radius normal).
  - intros Hnz. pose proof (needle_axis_inv normal Hnz) as Ha.
    eapply point_eq_trans; [exact H2|].
    destruct (libCtrlShapesMore.shaft_tip
                (libCtrlShapes.create_shape_needle size length radius normal))
      as [[a b] c].
    destruct (libCtrlShapesMore.needle_axis normal) as [[x y] z].
    destruct (libCtrlShapesMore.needle_axis
                (libCtrlShapesMore.normal_inv normal)) as [[x' y'] z'].
    cbn in *. destruct H1 as (E1 & E2 & E3), Ha as (E4 & E5 & E6).
    rewrite E1, E2, E3, E4, E5, E6. repeat split; ring.
Qed.

(** The double needle along X: the two shafts end at 3.75 and -3.75. *)
Lemma needle_points_along_normal_witness :
  let '(n1, n2) :=
    libCtrlShapesMore.create_shape_double_needle (1, 0, 0)%Q 1 None None in
  libCtrlShapesMore.point_eq
    (libCtrlShapesMore.shaft_tip n2)
    (libCtrlShapesMore.scale_point (- (1)) (libCtrlShapesMore.shaft_tip n1)).
Proof.
  pose proof (needle_points_along_normal 1 None None (1, 0, 0)%Q) as H.
  cbv zeta in H.
  destruct (libCtrlShapesMore.create_shape_double_needle (1, 0, 0)%Q 1 None None)
    as [n1 n2].
  apply H. reflexivity.
Defined.


(** X14. The outline of [create_shape_cross] is closed (its last point is
    its first), made of 12 segments each parallel to the Y or to the Z axis,
    and symmetric about the origin. *)
Theorem cross_outline (c : Q) :
  let o := libCtrlShapes.create_shape_cross c in
  List.hd (0, 0, 0)%Q o = List.last o (0, 0, 0)%Q
  /\ List.length (libCtrlShapesMore.segments o) = 12%nat
  /\ Forall (fun '(p, q) =>
               fst (fst p) = fst (fst q)
               /\ (libCtrlShapes.py p = libCtrlShapes.py q \/ snd p = snd q))
            (libCtrlShapesMore.segments o)
  /\ Forall (fun p =>
               Exists (libCtrlShapesMore.point_eq
                         (libCtrlShapesMore.scale_point (- (1)) p)) o) o.
Proof.
  cbv zeta. split; [reflexivity|]. split; [reflexivity|]. split.
  - unfold libCtrlShapes.create_shape_cross. cbn.
    repeat (apply List.Forall_cons;
            [split; [reflexivity|first [left; reflexivity|right; reflexivity]]|]).
    apply List.Forall_nil.
  - apply cross_symmetric.
Qed.

(** ** More on the facial avars *)

Section OobPlane.
Import Avar AvarMore.
Local Open Scope Q_scope.

Lemma Q_ltb_iff (a b : Q) : Q_ltb a b = true <-> a < b.
Proof.
  unfold Q_ltb. rewrite Qlt_alt. destruct (a ?= b); split; congruence.
Qed.

Lemma Q_ltb_false_iff (a b : Q) : Q_ltb a b = false <-> b <= a.
Proof.
  rewrite <- not_true_iff_false, Q_ltb_iff. split; [apply Qnot_lt_le|].
  intros H1 H2. lra.
Qed.




End OobPlane.


(** On the unit plane, an avar of 3 with the default multiplier 0.25 from the
    centre: the point is at 1.25, a quarter past the border. *)
Example oob_layer_extends_plane_eval :
  let f := AvarMore.edge_follicle (0, 0, 0)%Q (1, 0, 0)%Q (0, 1, 0)%Q in
  let '(U, V) :=
    AvarMore._get_follicle_absolute_uv_attr
      (5 # 10)%Q (5 # 10)%Q 3%Q 0%Q
      AvarMore.default_multiplier_lr AvarMore.default_multiplier_ud in
  AvarMore.vec3_eq
    (Maya.plusMinusAverage3 1 (f U V)
                            (Avar.oob_offset (Avar.out_of_bound f U V)))
    (125 # 100, 5 # 10, 0)%Q.
Proof. vm_compute. repeat split. Qed.

(** X16. For every surface, while both parameters are within [0, 1] the
    out-of-bound layer adds nothing; this is the case of the neutral pose
    ([avar_lr = avar_ud = 0]) of an avar whose base parameters are within
    the bounds, where the parameters are the base parameters. *)
Theorem oob_layer_inert_in_bounds (follicle : Q -> Q -> Maya.vec3 (A := Q))
        (base_u base_v avar_lr avar_ud mult_lr mult_ud : Q) :
  let '(U, V) :=
    AvarMore._get_follicle_absolute_uv_attr base_u base_v avar_lr avar_ud
                                            mult_lr mult_ud in
  ((0 <= U <= 1)%Q -> (0 <= V <= 1)%Q ->
   Avar.is_zero3 (Avar.oob_offset (Avar.out_of_bound follicle U V)) = true)
  /\ ((avar_lr == 0)%Q -> (avar_ud == 0)%Q ->
      (U == base_u)%Q /\ (V == base_v)%Q
      /\ ((0 <= base_u <= 1)%Q -> (0 <= base_v <= 1)%Q ->
          Avar.is_zero3 (Avar.oob_offset (Avar.out_of_bound follicle U V))
          = true)).
Proof.
  cbn.
  assert (Hin : forall U V, (0 <= U <= 1)%Q -> (0 <= V <= 1)%Q ->
            Avar.is_zero3 (Avar.oob_offset (Avar.out_of_bound follicle U V))
            = true).
  { intros U V HU HV.
    destruct (oob_gates follicle U V) as [Eu Ev]. cbv zeta in Eu, Ev.
    rewrite (oob_offset_is_sum follicle U V), Eu, Ev.
    unfold Avar.out_of_bounds.
    assert (E1 : Q_ltb U 0 = false) by (apply Q_ltb_false_iff; lra).
    assert (E2 : Q_ltb 1 U = false) by (apply Q_ltb_false_iff; lra).
    assert (E3 : Q_ltb V 0 = false) by (apply Q_ltb_false_iff; lra).
    assert (E4 : Q_ltb 1 V = false) by (apply Q_ltb_false_iff; lra).
    rewrite E1, E2, E3, E4. reflexivity. }
  split; [apply Hin|]. intros Hl Hu.
  assert (EU : (base_u + avar_lr * mult_lr == base_u)%Q)
    by (rewrite Hl; ring).
  assert (EV : (base_v + avar_ud * mult_ud == base_v)%Q)
    by (rewrite Hu; ring).
  split; [exact EU|]. split; [exact EV|].
  intros HU HV. apply Hin; rewrite ?EU, ?EV; assumption.
Qed.

(** The neutral pose at the centre of the unit plane. *)
Lemma oob_layer_inert_in_bounds_witness :
  Avar.is_zero3
    (Avar.oob_offset
       (Avar.out_of_bound Avar.plane_follicle
          ((5 # 10) + 0 * (25 # 100))%Q ((5 # 10) + 0 * (25 # 100))%Q)) = true.
Proof.
  pose proof (oob_layer_inert_in_bounds Avar.plane_follicle (5 # 10)%Q
                (5 # 10)%Q 0%Q 0%Q (25 # 100)%Q (25 # 100)%Q) as H.
  cbn [AvarMore._get_follicle_absolute_uv_attr
         AvarMore._get_follicle_relative_uv_attr] in H.
  destruct H as [_ H].
  apply H; try reflexivity; split; discriminate.
Defined.

(** ** Unbuilding an avar with a ctrl model *)

Section FollicleUnbuild.
Import AvarMore.
Variable attr_get : Avar.attr -> option Q.
Variable str_self : Avar.AbstractAvar -> string.
Variable resolve : Avar.AbstractAvar -> string -> string.
Variable hold_connections :
  Avar.AbstractAvar -> Host.node -> Host.world -> Host.world.
Variable Module_unbuild :
  Avar.Module -> Host.world -> Avar.Module * Host.world.
Variable str_exn : exn -> string.
Variable model_unbuild : nat -> Host.world -> Host.world * outcome unit.

End FollicleUnbuild.



(* ================================================================== *)
(** * The position of the swivel ctrl *)
(* ================================================================== *)

Section SwivelFacts.
Import IKSwivel.
Local Open Scope R_scope.

Lemma R_eqb_false (a b : R) : R_eqb a b = false <-> a <> b.
Proof. unfold R_eqb; destruct (Req_dec_T a b); split; (congruence || tauto). Qed.

Lemma sum_squares_nonneg (x y z : R) : 0 <= x * x + y * y + z * z.
Proof. nra. Qed.

Lemma length_nonneg (v : Vector) : 0 <= length v.
Proof. destruct v as [[x y] z]. apply sqrt_pos. Qed.

Lemma length_square (v : Vector) :
  let '(x, y, z) := v in length v * length v = x * x + y * y + z * z.
Proof. destruct v as [[x y] z]. apply sqrt_sqrt, sum_squares_nonneg. Qed.

Lemma length_pos (v : Vector) : v <> (0, 0, 0) -> 0 < length v.
Proof.
  destruct v as [[x y] z]. intros Hv. apply sqrt_lt_R0.
  destruct (Req_dec x 0) as [Hx|Hx]; [|nra].
  destruct (Req_dec y 0) as [Hy|Hy]; [|nra].
  destruct (Req_dec z 0) as [Hz|Hz]; [|nra].
  exfalso. apply Hv. congruence.
Qed.

Lemma vsub_nonzero (a b : Vector) : a <> b -> vsub a b <> (0, 0, 0).
Proof.
  destruct a as [[ax ay] az], b as [[bx by_] bz]. cbn. intros Hab E.
  apply Hab. injection E as Ex Ey Ez. f_equal; [f_equal|]; lra.
Qed.

Lemma normal_scaled (d : Vector) : normal d = vmul d (/ length d).
Proof. destruct d as [[x y] z]. reflexivity. Qed.

(** A point at [L] along the normal of [d] from [b] is at distance [L]. *)
Lemma length_along_normal (b d : Vector) (L : R) :
  0 <= L -> 0 < length d ->
  length (vsub (vadd b (vmul (normal d) L)) b) = L.
Proof.
  intros HL Hn. pose proof (length_square d) as Hsq.
  destruct b as [[bx by_] bz], d as [[dx dy] dz].
  unfold normal. set (n := length (dx, dy, dz)) in *.
  cbn [vadd vmul vsub length].
  assert (E : (bx + dx / n * L - bx) * (bx + dx / n * L - bx)
              + (by_ + dy / n * L - by_) * (by_ + dy / n * L - by_)
              + (bz + dz / n * L - bz) * (bz + dz / n * L - bz)
              = L * L * ((dx * dx + dy * dy + dz * dz) / (n * n))).
  { field. lra. }
  rewrite E, <- Hsq.
  replace (L * L * (n * n / (n * n))) with (L * L) by (field; lra).
  apply sqrt_square, HL.
Qed.

Lemma fold_length_shift (l : list joint) (a : R) :
  fold_left (fun acc j => acc + length (t j)) l a = a + chain_length l.
Proof.
  unfold chain_length. revert a.
  induction l as [|j l IH]; intros a; cbn [fold_left].
  - lra.
  - rewrite (IH (a + length (t j))), (IH (0 + length (t j))). lra.
Qed.

Lemma chain_length_cons (j : joint) (l : list joint) :
  chain_length (j :: l) = length (t j) + chain_length l.
Proof.
  unfold chain_length at 1. cbn [fold_left].
  rewrite fold_length_shift. lra.
Qed.

Lemma chain_length_nonneg (l : list joint) : 0 <= chain_length l.
Proof.
  induction l as [|j l IH].
  - unfold chain_length. cbn. lra.
  - rewrite chain_length_cons. pose proof (length_nonneg (t j)). lra.
Qed.


(** From the second joint to the joint of the ctrl, the slice starts with
    the second joint. *)
Lemma slice_from_1_head (j0 j1 : joint) (rest : list joint) (i : Z) :
  (1 <= i)%Z ->
  exists l, slice_from_1 (j0 :: j1 :: rest) (i + 1) = j1 :: l.
Proof.
  intros Hi. unfold slice_from_1.
  assert (E : (i + 1 <? 0)%Z = false) by (apply Z.ltb_ge; lia).
  rewrite E. cbn [List.length].
  set (stop := Z.min (i + 1) (Z.of_nat (S (S (List.length rest))))).
  assert (Hs : (2 <= stop)%Z) by (unfold stop; lia).
  destruct (Z.to_nat stop) as [|[|n]] eqn:En; try lia.
  cbn. eexists. reflexivity.
Qed.


Lemma getitem_0 {A} (a : A) (l : list A) : getitem (a :: l) 0 = Return a.
Proof. reflexivity. Qed.

Lemma getitem_1 {A} (a b : A) (l : list A) :
  getitem (a :: b :: l) 1 = Return b.
Proof. reflexivity. Qed.


Lemma getitem_in_range {A} (l : list A) (i : Z) :
  (- Z.of_nat (List.length l) <= i < Z.of_nat (List.length l))%Z ->
  exists a, getitem l i = Return a.
Proof.
  intros Hi. unfold getitem, Py.getitem, norm_index.
  destruct (i <? 0)%Z eqn:Hneg.
  - apply Z.ltb_lt in Hneg.
    assert (E : (i + Z.of_nat (List.length l) <? 0)%Z = false)
      by (apply Z.ltb_ge; lia).
    rewrite E.
    destruct (nth_error l (Z.to_nat (i + Z.of_nat (List.length l)))) eqn:En.
    + eexists; reflexivity.
    + apply nth_error_None in En. lia.
  - rewrite Hneg. apply Z.ltb_ge in Hneg.
    destruct (nth_error l (Z.to_nat i)) eqn:En.
    + eexists; reflexivity.
    + apply nth_error_None in En. lia.
Qed.


(** The position, once the division went through. *)
Lemma swivel_pos_value (j0 j1 : joint) (rest : list joint)
      (S E : Vector) (L : R) :
  L <> 0 ->
  swivel_pos (j0 :: j1 :: rest) S E L =
    Return (vadd (swivel_base S E (length (t j1) / L))
              (vmul (normal (vsub (getTranslation j1)
                               (swivel_base S E (length (t j1) / L)))) L)).
Proof.
  intros HL. unfold swivel_pos. rewrite getitem_1. cbn [bind].
  unfold float_div. apply R_eqb_false in HL. rewrite HL. reflexivity.
Qed.

End SwivelFacts.

(** X18. [IK.calc_swivel_pos]: for a chain of positive length whose second
    joint is not on the base point, the swivel is at the distance of the
    chain length from the base point, on the side of the second joint, and
    in the plane of the first joint, the second joint and the joint of the
    ctrl: it is a combination of the three positions with coefficients of
    sum 1. *)
Theorem calc_swivel_pos_in_chain_plane
        (j0 j1 jE : IKSwivel.joint) (rest : list IKSwivel.joint)
        (iCtrlIndex : Z) (L : R) :
  let input := j0 :: j1 :: rest in
  let S := IKSwivel.getTranslation j0 in
  let E := IKSwivel.getTranslation jE in
  let M := IKSwivel.getTranslation j1 in
  let r := (IKSwivel.length (IKSwivel.t j1) / L)%R in
  let base := IKSwivel.swivel_base S E r in
  let k := (L / IKSwivel.length (IKSwivel.vsub M base))%R in
  IKSwivel.getitem input iCtrlIndex = IKSwivel.Return jE ->
  (0 < L)%R ->
  M <> base ->
  exists p,
    IKSwivel.calc_swivel_pos input iCtrlIndex L = IKSwivel.Return p
    /\ IKSwivel.length (IKSwivel.vsub p base) = L
    /\ p = IKSwivel.vadd
             (IKSwivel.vadd (IKSwivel.vmul S ((1 - k) * (1 - r))%R)
                            (IKSwivel.vmul E ((1 - k) * r)%R))
             (IKSwivel.vmul M k)
    /\ ((1 - k) * (1 - r) + (1 - k) * r + k = 1)%R
    /\ (0 < k)%R.
Proof.
  intros input S E M r base k HE HL HM.
  assert (Hn : (0 < IKSwivel.length (IKSwivel.vsub M base))%R)
    by (apply length_pos, vsub_nonzero, HM).
  eexists. split.
  { unfold IKSwivel.calc_swivel_pos, input. rewrite getitem_0.
    cbn [IKSwivel.bind]. fold input. rewrite HE. cbn [IKSwivel.bind].
    unfold input. apply swivel_pos_value. lra. }
  fold S E M r base. split; [|split; [|split]].
  - apply length_along_normal; lra.
  - rewrite normal_scaled. unfold k.
    set (n := IKSwivel.length (IKSwivel.vsub M base)) in *.
    clearbody n. unfold base, IKSwivel.swivel_base. clearbody r.
    destruct S as [[sx sy] sz], E as [[ex ey] ez], M as [[mx my] mz].
    cbn [IKSwivel.vadd IKSwivel.vsub IKSwivel.vmul].
    f_equal; [f_equal|]; field; lra.
  - ring.
  - unfold k. apply Rdiv_lt_0_compat; assumption.
Qed.

(** An arm along the x axis with the elbow lifted by 1: the swivel is above
    the base point at the distance 4. *)
Lemma calc_swivel_pos_in_chain_plane_witness :
  exists p,
    IKSwivel.calc_swivel_pos
      [IKSwivel.mkJoint (0, 0, 0)%R (0, 0, 0)%R;
       IKSwivel.mkJoint (2, 0, 0)%R (2, 1, 0)%R;
       IKSwivel.mkJoint (2, 0, 0)%R (4, 0, 0)%R] 2 4 = IKSwivel.Return p.
Proof.
  destruct (calc_swivel_pos_in_chain_plane
              (IKSwivel.mkJoint (0, 0, 0)%R (0, 0, 0)%R)
              (IKSwivel.mkJoint (2, 0, 0)%R (2, 1, 0)%R)
              (IKSwivel.mkJoint (2, 0, 0)%R (4, 0, 0)%R)
              [IKSwivel.mkJoint (2, 0, 0)%R (4, 0, 0)%R] 2 4)
    as (p & Hp & _).
  - reflexivity.
  - lra.
  - cbn. intros E. injection E as _ Ey _. lra.
  - exists p. exact Hp.
Defined.

(** X19. The legacy [IK.Build]: when the joint of the ctrl is at an index
    from 1 on and the second joint has a translation, the chain length is
    positive, the position is the one [calc_swivel_pos] gives for this
    length, and the ratio is within (0, 1]: the base point is on the
    segment from the first joint to the joint of the ctrl. *)
Theorem legacy_swivel_base_on_segment
        (j0 j1 : IKSwivel.joint) (rest : list IKSwivel.joint)
        (iCtrlIndex : Z) :
  let aInput := j0 :: j1 :: rest in
  let L := IKSwivel.chain_length
             (IKSwivel.slice_from_1 aInput (iCtrlIndex + 1)) in
  let r := (IKSwivel.length (IKSwivel.t j1) / L)%R in
  (1 <= iCtrlIndex < Z.of_nat (List.length aInput))%Z ->
  IKSwivel.t j1 <> (0, 0, 0)%R ->
  (0 < L)%R
  /\ (0 < r <= 1)%R
  /\ exists p,
       IKSwivel.calc_swivel_pos aInput iCtrlIndex L = IKSwivel.Return p
       /\ IKSwivel.Build_swivel aInput iCtrlIndex = IKSwivel.Return (L, p).
Proof.
  intros aInput L r Hi Ht.
  pose proof (length_pos _ Ht) as Hlen.
  destruct (slice_from_1_head j0 j1 rest iCtrlIndex (proj1 Hi)) as [l El].
  assert (HL : (L = IKSwivel.length (IKSwivel.t j1)
                    + IKSwivel.chain_length l)%R).
  { unfold L, aInput. rewrite El. apply chain_length_cons. }
  pose proof (chain_length_nonneg l) as Hl.
  assert (HLpos : (0 < L)%R) by lra.
  split; [exact HLpos|]. split.
  { unfold r. split.
    - apply Rdiv_lt_0_compat; assumption.
    - apply (Rmult_le_reg_r L); [exact HLpos|].
      unfold Rdiv. rewrite Rmult_assoc, Rinv_l by lra. lra. }
  destruct (getitem_in_range aInput iCtrlIndex) as [jE HjE]; [lia|].
  pose proof (swivel_pos_value j0 j1 rest (IKSwivel.getTranslation j0)
                (IKSwivel.getTranslation jE) L) as Hp.
  eexists. split.
  - unfold IKSwivel.calc_swivel_pos.
    change (IKSwivel.getitem aInput 0) with (IKSwivel.Return j0).
    cbn [IKSwivel.bind]. rewrite HjE. cbn [IKSwivel.bind].
    apply Hp. lra.
  - unfold IKSwivel.Build_swivel.
    change (IKSwivel.getitem aInput 0) with (IKSwivel.Return j0).
    cbn [IKSwivel.bind]. rewrite HjE. cbn [IKSwivel.bind].
    change (IKSwivel.chain_length
              (IKSwivel.slice_from_1 aInput (iCtrlIndex + 1))) with L.
    unfold aInput. rewrite Hp by lra. reflexivity.
Qed.

(** A chain of three joints, each 2 long, with the ctrl on the third: the
    length is positive. *)
Lemma legacy_swivel_base_on_segment_witness :
  (0 < IKSwivel.chain_length
         (IKSwivel.slice_from_1
            [IKSwivel.mkJoint (0, 0, 0)%R (0, 0, 0)%R;
             IKSwivel.mkJoint (2, 0, 0)%R (2, 1, 0)%R;
             IKSwivel.mkJoint (2, 0, 0)%R (4, 0, 0)%R] (2 + 1)))%R.
Proof.
  refine (proj1 (legacy_swivel_base_on_segment
                   (IKSwivel.mkJoint (0, 0, 0)%R (0, 0, 0)%R)
                   (IKSwivel.mkJoint (2, 0, 0)%R (2, 1, 0)%R)
                   [IKSwivel.mkJoint (2, 0, 0)%R (4, 0, 0)%R] 2 _ _)).
  - cbn. lia.
  - cbn. intros E. apply (f_equal (fun v => fst (fst v))) in E.
    cbn in E. lra.
Defined.


